(** * n8n-nodes-github-copilot: model-capability cache and vision fallback

    A shallow embedding of
    - [DynamicModelsManager] (the per-token model cache), and
    - the [execute] method of the [GitHubCopilotOpenAI] node (message
      parsing, vision detection, vision fallback, error reporting),
    followed by the properties established about them.

    Conventions.  A JavaScript string is the sequence of its UTF-16 code
    units; the embedding covers strings whose code units are below 256
    and represents them by [string].  [Date.now()] is an integer number of
    milliseconds.  Exceptions are values of a sum type; the module-level
    cache is threaded explicitly.  The texts of fixed messages are copied
    from the source file as they stand. *)

From Stdlib Require Import ZArith String Ascii List Bool Lia.
From stdpp Require Import base option gmap strings.

Import ListNotations.
#[local] Set Warnings "-register-all".
Local Open Scope string_scope.
Local Open Scope Z_scope.

(* ================================================================== *)
(** ** JavaScript strings *)
(* ================================================================== *)

Module JsString.

Definition code (c : ascii) : Z := Z.of_N (N_of_ascii c).

(** [WhiteSpace] and [LineTerminator] code units below 256: what
    [String.prototype.trim] strips and what [\s] matches. *)
Definition isWhiteSpace (c : ascii) : bool :=
  let n := code c in
  ((9 <=? n) && (n <=? 13)) || (n =? 32) || (n =? 160).

(** Code units that [.] does not match (no [s] flag). *)
Definition isLineTerminator (c : ascii) : bool :=
  let n := code c in (n =? 10) || (n =? 13).

Definition isDigit (c : ascii) : bool :=
  let n := code c in (48 <=? n) && (n <=? 57).

Definition lowerChar (c : ascii) : ascii :=
  let n := code c in
  if ((65 <=? n) && (n <=? 90))
     || ((192 <=? n) && (n <=? 222) && negb (n =? 215))
  then ascii_of_N (Z.to_N (n + 32)) else c.

(** [s.toLowerCase()] *)
Fixpoint toLowerCase (s : string) : string :=
  match s with
  | EmptyString => EmptyString
  | String c t => String (lowerChar c) (toLowerCase t)
  end.

(** Case-insensitive comparison of a code unit with an ASCII pattern
    character ([i] flag): only the two ASCII cases of a letter match. *)
Definition asciiLower (c : ascii) : ascii :=
  let n := code c in
  if (65 <=? n) && (n <=? 90) then ascii_of_N (Z.to_N (n + 32)) else c.

Definition eqCI (p c : ascii) : bool :=
  Ascii.eqb (asciiLower p) (asciiLower c).

(** [s.startsWith(p)] *)
Fixpoint startsWith (p s : string) : bool :=
  match p, s with
  | EmptyString, _ => true
  | String a p', String b s' => Ascii.eqb a b && startsWith p' s'
  | String _ _, EmptyString => false
  end.

Fixpoint startsWithCI (p s : string) : bool :=
  match p, s with
  | EmptyString, _ => true
  | String a p', String b s' => eqCI a b && startsWithCI p' s'
  | String _ _, EmptyString => false
  end.

(** [s.includes(p)] *)
Fixpoint includes (p s : string) : bool :=
  startsWith p s ||
  match s with
  | EmptyString => false
  | String _ t => includes p t
  end.

Fixpoint drop (n : nat) (s : string) : string :=
  match n, s with
  | O, _ => s
  | S n', String _ t => drop n' t
  | S _, EmptyString => EmptyString
  end.

Fixpoint trimStart (s : string) : string :=
  match s with
  | EmptyString => EmptyString
  | String c t => if isWhiteSpace c then trimStart t else s
  end.

Fixpoint trimEnd (s : string) : string :=
  match s with
  | EmptyString => EmptyString
  | String c t =>
      match trimEnd t with
      | EmptyString => if isWhiteSpace c then EmptyString else String c EmptyString
      | t' => String c t'
      end
  end.

(** [s.trim()] *)
Definition trim (s : string) : string := trimEnd (trimStart s).

Definition isEmpty (s : string) : bool :=
  match s with EmptyString => true | _ => false end.

(** The double-quote character, code unit 34. *)
Definition dquote : string := String (ascii_of_N 34) EmptyString.

End JsString.

(* ================================================================== *)
(** ** JavaScript values *)
(* ================================================================== *)

Module Js.

(** JSON-shaped values, plus [undefined].  Numbers are integers: the
    code only ever observes whether a number is zero.  An object is the
    list of its own properties; the first binding of a key counts. *)
Inductive JValue : Type :=
| JUndefined
| JNull
| JBool (b : bool)
| JNum (n : Z)
| JStr (s : string)
| JArr (items : list JValue)
| JObj (props : list (string * JValue)).

Definition truthy (v : JValue) : bool :=
  match v with
  | JUndefined | JNull => false
  | JBool b => b
  | JNum n => negb (n =? 0)
  | JStr s => negb (JsString.isEmpty s)
  | JArr _ | JObj _ => true
  end.

Definition isNullish (v : JValue) : bool :=
  match v with JUndefined | JNull => true | _ => false end.

Fixpoint assoc (k : string) (ps : list (string * JValue)) : JValue :=
  match ps with
  | [] => JUndefined
  | (k', v) :: ps' => if String.eqb k k' then v else assoc k ps'
  end.

(** [v.k] for a data property name [k] (the names read by the code:
    content, type, role, image_url, messages, message, error, code,
    supports, limits, vision, ...).  [None] is the [TypeError] raised
    on [null] and [undefined]; primitives and arrays have no such
    property. *)
Definition get (v : JValue) (k : string) : option JValue :=
  match v with
  | JUndefined | JNull => None
  | JObj ps => Some (assoc k ps)
  | _ => Some JUndefined
  end.

(** [v?.k] *)
Definition getOpt (v : JValue) (k : string) : JValue :=
  match get v k with Some x => x | None => JUndefined end.

(** [a || b] *)
Definition orElse (a b : JValue) : JValue := if truthy a then a else b.

(** [v === 'lit'] *)
Definition isStr (v : JValue) (lit : string) : bool :=
  match v with JStr s => String.eqb s lit | _ => false end.

(** [v === true] *)
Definition isTrue (v : JValue) : bool :=
  match v with JBool true => true | _ => false end.

Definition isArray (v : JValue) : bool :=
  match v with JArr _ => true | _ => false end.

(** [typeof v === 'object'] *)
Definition typeofObject (v : JValue) : bool :=
  match v with JNull | JArr _ | JObj _ => true | _ => false end.

End Js.

(* ================================================================== *)
(** ** Exceptions *)
(* ================================================================== *)

Module Exc.

(** [JsError m] is [new Error(m)].  [TypeError] is raised by the
    engine: property of [null], call of a non-function, iteration of a
    non-iterable.  [External] is a rejection that comes from the host or
    from the network. *)
Inductive Exn : Type :=
| JsError (message : string)
| TypeError
| NodeOperationError (message : string) (itemIndex : nat)
                     (description : option string)
| External (message : string).

Definition M (A : Type) : Type := Exn + A.

Definition ret {A} (a : A) : M A := inr a.
Definition throw {A} (e : Exn) : M A := inl e.
Definition bind {A B} (m : M A) (k : A -> M B) : M B :=
  match m with
  | inl e => inl e
  | inr a => k a
  end.

Definition threw {A} (m : M A) : bool :=
  match m with inl _ => true | inr _ => false end.

End Exc.

Notation "'let*' x ':=' m 'in' k" := (Exc.bind m (fun x => k))
  (at level 10, x name, m at level 100, k at level 200).

(* ================================================================== *)
(** ** DynamicModelsManager *)
(* ================================================================== *)

Module DynamicModelsManager.
Import Js Exc.

(** The members of a model descriptor that the manager reads. *)
Record CopilotModel : Type := mkModel {
  id : string;
  name : string;
  capabilities : JValue
}.

Record ModelCache : Type := mkCache {
  models : list CopilotModel;
  fetchedAt : Z;
  expiresAt : Z;
  tokenHash : string
}.

Definition CACHE_DURATION_MS : Z := 60 * 60 * 1000.
Definition MIN_REFRESH_INTERVAL_MS : Z := 5 * 60 * 1000.

(** *** hashToken *)

Definition ToInt32 (z : Z) : Z := (z + 2 ^ 31) mod 2 ^ 32 - 2 ^ 31.

(** One turn of the loop: [hash = (hash << 5) - hash + char;
    hash = hash & hash]. *)
Definition hashStep (hash : Z) (c : ascii) : Z :=
  let hash := ToInt32 (Z.shiftl (ToInt32 hash) 5) - hash + JsString.code c in
  Z.land (ToInt32 hash) (ToInt32 hash).

Fixpoint hashLoop (hash : Z) (token : string) : Z :=
  match token with
  | EmptyString => hash
  | String c rest => hashLoop (hashStep hash c) rest
  end.

Definition digit36 (d : Z) : ascii :=
  ascii_of_N (Z.to_N (if d <? 10 then 48 + d else 87 + d)).

Fixpoint toString36_aux (fuel : nat) (n : Z) (acc : string) : string :=
  match fuel with
  | O => acc
  | S fuel' =>
      let acc' := String (digit36 (n mod 36)) acc in
      if n / 36 =? 0 then acc' else toString36_aux fuel' (n / 36) acc'
  end.

(** [n.toString(36)] for an integer [n >= 0]. *)
Definition toString36 (n : Z) : string :=
  toString36_aux (S (Z.to_nat (Z.log2 n))) n EmptyString.

Definition SENTINEL : string := "models_default".

(** The token is typed [string] but the guard also takes what the
    host may hand over instead: [undefined], [null], a non-string. *)
Definition hashToken (token : JValue) : string :=
  match token with
  | JStr (String c rest) =>
      "models_" ++ toString36 (Z.abs (hashLoop 0 (String c rest)))
  | _ => SENTINEL
  end.

(** *** The cache and the provider *)

(** The static [cache] map, and the log of the outbound requests made
    so far (the token of each, oldest first). *)
Record World : Type := mkWorld {
  cache : gmap string ModelCache;
  fetches : list JValue
}.

Definition ST (A : Type) : Type := World -> M A * World.

(** What the model-listing endpoint does with one request:
    [Unreachable] when [fetch] rejects or the body is not a listing,
    [Status] when [!response.ok] (the status code in decimal),
    [Listing] when [response.ok] and the body is [{ data }]. *)
Inductive Response : Type :=
| Unreachable (reason : string)
| Status (status statusText : string)
| Listing (data : list CopilotModel).

Definition failed (r : Response) : bool :=
  match r with Listing _ => false | _ => true end.

Definition fetchModelsFromAPI (oauthToken : JValue) (r : Response)
  : ST (list CopilotModel) :=
  fun w =>
    let w' := mkWorld (cache w) (fetches w ++ [oauthToken]) in
    match r with
    | Unreachable reason => (throw (External reason), w')
    | Status status statusText =>
        (throw (JsError ("Failed to fetch models: " ++ status ++ " " ++ statusText)), w')
    | Listing data => (ret data, w')
    end.

(** [getAvailableModels(oauthToken)] called when the clock reads [now];
    [r] is what the provider answers if it is asked. *)
Definition getAvailableModels (oauthToken : JValue) (now : Z) (r : Response)
  : ST (list CopilotModel) :=
  fun w =>
    let tokenHash := hashToken oauthToken in
    let cached := cache w !! tokenHash in
    let refresh :=
      match fetchModelsFromAPI oauthToken r w with
      | (inr models, w1) =>
          (ret models,
           mkWorld (<[tokenHash := mkCache models now (now + CACHE_DURATION_MS) tokenHash]>
                      (cache w1))
                   (fetches w1))
      | (inl error, w1) =>
          match cached with
          | Some c => (ret (models c), w1)
          | None => (throw error, w1)
          end
      end in
    match cached with
    | Some c =>
        if expiresAt c >? now then (ret (models c), w)
        else if now - fetchedAt c <? MIN_REFRESH_INTERVAL_MS then (ret (models c), w)
        else refresh
    | None => refresh
    end.

Definition clearCache (oauthToken : JValue) : ST unit :=
  fun w => (ret tt, mkWorld (delete (hashToken oauthToken) (cache w)) (fetches w)).

Definition clearAllCache : ST unit :=
  fun w => (ret tt, mkWorld ∅ (fetches w)).

(** [cached.models.find(m => m.id === modelId) || null] *)
Definition getModelFromCache (oauthToken : JValue) (modelId : string)
  : ST (option CopilotModel) :=
  fun w =>
    match cache w !! hashToken oauthToken with
    | None => (ret None, w)
    | Some cached =>
        (ret (List.find (fun m => String.eqb (id m) modelId) (models cached)), w)
    end.

(** The two indicators read by [modelSupportsVision]:
    [capabilities?.supports.vision === true] and a truthy
    [capabilities?.limits.vision]. *)
Definition declaresVision (model : CopilotModel) : bool :=
  let supports := orElse (getOpt (capabilities model) "supports") (JObj []) in
  if isTrue (getOpt supports "vision") then true
  else
    let limits := orElse (getOpt (capabilities model) "limits") (JObj []) in
    if truthy (getOpt limits "vision") then true else false.

(** [boolean | null]: [None] is [null]. *)
Definition modelSupportsVision (oauthToken : JValue) (modelId : string)
  : ST (option bool) :=
  fun w =>
    match getModelFromCache oauthToken modelId w with
    | (inr (Some model), w') => (ret (Some (declaresVision model)), w')
    | (inr None, w') => (ret None, w')
    | (inl e, w') => (throw e, w')
    end.

End DynamicModelsManager.

(* ================================================================== *)
(** ** The GitHubCopilotOpenAI node: building the request of one item *)
(* ================================================================== *)

Module GitHubCopilotOpenAI.
Import Js Exc.

(** The node parameters of one item, as [getNodeParameter] returns
    them (defaults applied). *)
Record NodeParameters : Type := mkParams {
  modelSource : string;
  customModel : JValue;
  model : string;
  messagesInputMode : string;
  messagesJson : JValue;
  messages : JValue;
  advancedOptions : JValue
}.

(** What is handed to [makeApiRequest]: the members [model] and
    [messages] of the request body, and the vision flag.  The other
    members of the body (stream, temperature, max_tokens, tools, ...)
    are computed from [advancedOptions] alone, inside their own
    [try]/[catch] where they can fail, and touch neither of these. *)
Record Request : Type := mkRequest {
  body_model : string;
  body_messages : JValue;
  vision : bool
}.

Definition nl : string := String (ascii_of_N 10) EmptyString.
Definition q (s : string) : string := JsString.dquote ++ s ++ JsString.dquote.

(** [if (!v || v.trim() === '') throw e], then [v] as a string. *)
Definition requireText (v : JValue) (e : Exn) : M string :=
  match v with
  | JStr s =>
      if JsString.isEmpty s || JsString.isEmpty (JsString.trim s)
      then throw e else ret s
  | _ => if truthy v then throw TypeError else throw e
  end.

(** *** The requested model *)

Definition requestedModel (p : NodeParameters) : M string :=
  if String.eqb (modelSource p) "custom" then
    requireText (customModel p)
      (JsError "Custom model name is required when using 'Custom (Manual Entry)' mode")
  else if String.eqb (model p) "__manual__" then
    requireText (customModel p)
      (JsError "Custom model name is required when selecting '✏️ Enter Custom Model Name'")
  else ret (model p).

(** The own properties of [modelMapping]. *)
Definition modelMapping : list (string * string) :=
  [ ("gpt-4", "gpt-4o");
    ("gpt-4o", "gpt-4o");
    ("gpt-4o-mini", "gpt-4o-mini");
    ("gpt-4-turbo", "gpt-4o");
    ("claude-3-5-sonnet", "claude-3.5-sonnet");
    ("claude-3.5-sonnet-20241022", "claude-3.5-sonnet");
    ("o1", "o1");
    ("o1-preview", "o1-preview");
    ("o1-mini", "o1-mini") ].

Fixpoint lookupMapping (k : string) (t : list (string * string)) : option string :=
  match t with
  | [] => None
  | (k', v) :: t' => if String.eqb k k' then Some v else lookupMapping k t'
  end.

(** [modelMapping] is an object literal, so indexing it with a member
    name of [Object.prototype] yields that member and not a model id.
    [mapModel] stands for [modelMapping[model] || model] on every other
    name; the statements about model ids exclude these names. *)
Definition Object_prototype_keys : list string :=
  [ "constructor"; "hasOwnProperty"; "isPrototypeOf"; "propertyIsEnumerable";
    "toLocaleString"; "toString"; "valueOf"; "__proto__";
    "__defineGetter__"; "__defineSetter__"; "__lookupGetter__"; "__lookupSetter__" ].

Definition inheritedKey (k : string) : bool :=
  existsb (String.eqb k) Object_prototype_keys.

Definition mapModel (model : string) : string :=
  match lookupMapping model modelMapping with
  | Some m => if JsString.isEmpty m then model else m
  | None => model
  end.

(** *** The message list *)

Definition defaultMessage : JValue :=
  JObj [("role", JStr "user"); ("content", JStr "Hello! How can you help me?")].

Definition engineMessage_null_messages : string :=
  "Cannot read properties of null (reading 'messages')".

Definition engineMessage_undefined_messages : string :=
  "Cannot read properties of undefined (reading 'messages')".

Section Host.
(** [JSON.parse(x as string)]: the value, or the message of the
    [SyntaxError]. *)
Variable JSON_parse : JValue -> string + JValue.
(** [JSON.stringify(v, null, 2)] of a plain object. *)
Variable JSON_stringify : JValue -> string.
(** [GitHubCopilotModelsManager.getModelByValue], the bundled static
    model table ([undefined] for an id it does not list). *)
Variable getModelByValue : string -> JValue.

(** JSON mode.  Returns [messages] (whatever the parsed value is). *)
Definition parseJsonMessages (messagesJson : JValue) : M JValue :=
  let failure (m : string) : M JValue :=
    throw (JsError ("Failed to parse messages JSON: " ++ m)) in
  let parsed :=
    if typeofObject messagesJson then inr messagesJson
    else JSON_parse messagesJson in
  match parsed with
  | inl syntaxError => failure syntaxError
  | inr parsed =>
      if isArray parsed then ret parsed
      else
        match parsed, get parsed "messages" with
        | JUndefined, _ => failure engineMessage_undefined_messages
        | _, None => failure engineMessage_null_messages
        | _, Some ms => if truthy ms && isArray ms then ret ms else ret parsed
        end
  end.

(** Manual mode: one [{ role, content }] per entry of the fixed
    collection, with [type] kept when it is ['text'] or
    ['image_url']. *)
Definition manualMessage (msg : JValue) : M JValue :=
  match get msg "role", get msg "content", get msg "type" with
  | Some role, Some content, Some type =>
      let message := [("role", role); ("content", content)] in
      if truthy type && (isStr type "text" || isStr type "image_url")
      then ret (JObj (message ++ [("type", type)]))
      else ret (JObj message)
  | _, _, _ => throw TypeError
  end.

Fixpoint mapM {A B} (f : A -> M B) (l : list A) : M (list B) :=
  match l with
  | [] => ret []
  | a :: l' => let* b := f a in let* bs := mapM f l' in ret (b :: bs)
  end.

Definition parseManualMessages (messagesParam : JValue) : M JValue :=
  match get messagesParam "message" with
  | None => throw TypeError
  | Some (JArr entries) => let* ms := mapM manualMessage entries in ret (JArr ms)
  | Some _ => ret (JArr [])
  end.

Definition parseMessages (p : NodeParameters) : M JValue :=
  if String.eqb (messagesInputMode p) "json"
  then parseJsonMessages (messagesJson p)
  else parseManualMessages (messages p).

(** [if (messages.length === 0) messages.push({...})].  In JSON mode
    [messages] need not be an array: an empty string, or an object
    whose [length] is 0, takes the branch and has no [push]. *)
Definition withDefaultMessage (messages : JValue) : M JValue :=
  match messages with
  | JUndefined | JNull => throw TypeError
  | JArr [] => ret (JArr [defaultMessage])
  | JStr EmptyString => throw TypeError
  | JObj props =>
      match assoc "length" props with
      | JNum 0 => throw TypeError
      | _ => ret messages
      end
  | _ => ret messages
  end.

Definition fileInContentMessage : string :=
  "❌ GitHub Copilot API Error: File attachments cannot be used inside 'content' array." ++ nl ++ nl ++
  "📋 INCORRECT FORMAT (OpenAI style - doesn't work):" ++ nl ++
  "{" ++ nl ++
  "  " ++ q "role" ++ ": " ++ q "user" ++ "," ++ nl ++
  "  " ++ q "content" ++ ": [" ++ nl ++
  "    {" ++ q "type" ++ ": " ++ q "text" ++ ", " ++ q "text" ++ ": " ++ q "Analyze this" ++ "}," ++ nl ++
  "    {" ++ q "type" ++ ": " ++ q "file" ++ ", " ++ q "file" ++ ": " ++ q "data:..." ++ "}  ❌ WRONG" ++ nl ++
  "  ]" ++ nl ++
  "}" ++ nl ++ nl ++
  "✅ CORRECT FORMAT (GitHub Copilot - message level):" ++ nl ++
  "[" ++ nl ++
  "  {" ++ q "role" ++ ": " ++ q "user" ++ ", " ++ q "content" ++ ": " ++ q "Analyze this file" ++ "}," ++ nl ++
  "  {" ++ q "role" ++ ": " ++ q "user" ++ ", " ++ q "content" ++ ": " ++ q "data:image/png;base64,..." ++ ", " ++ q "type" ++ ": " ++ q "file" ++ "}  ✅ CORRECT" ++ nl ++
  "]" ++ nl ++ nl ++
  "💡 Solution: Use separate messages with 'type' property at message level, not inside content array.".

(** Validation of one message: a part of type ['file'] inside a
    content array is refused. *)
Fixpoint checkParts (i : nat) (parts : list JValue) : M unit :=
  match parts with
  | [] => ret tt
  | contentItem :: rest =>
      match get contentItem "type" with
      | None => throw TypeError
      | Some t =>
          if isStr t "file"
          then throw (NodeOperationError fileInContentMessage i None)
          else checkParts i rest
      end
  end.

Definition validateMessage (i : nat) (msg : JValue) : M unit :=
  match get msg "content" with
  | None => throw TypeError
  | Some (JArr parts) => checkParts i parts
  | Some _ => ret tt
  end.

Fixpoint forEachM {A} (f : A -> M unit) (l : list A) : M unit :=
  match l with
  | [] => ret tt
  | a :: l' => let* _ := f a in forEachM f l'
  end.

Fixpoint setProp (k : string) (v : JValue) (ps : list (string * JValue))
  : list (string * JValue) :=
  match ps with
  | [] => [(k, v)]
  | (k', v') :: ps' =>
      if String.eqb k k' then (k, v) :: ps' else (k', v') :: setProp k v ps'
  end.

(** Normalisation of one message: a content that is a plain object
    is replaced by its JSON text. *)
Definition normalizeMessage (msg : JValue) : M JValue :=
  match msg with
  | JUndefined | JNull => throw TypeError
  | JObj props =>
      match assoc "content" props with
      | JObj content =>
          ret (JObj (setProp "content" (JStr (JSON_stringify (JObj content))) props))
      | _ => ret msg
      end
  | _ => ret msg
  end.

(** The message list as it stands after the default, validation and
    normalisation steps.  A string that is not empty goes through:
    its characters have neither [content] nor [type].  A number or a
    boolean has no [length] and skips both loops.  A plain object has
    no iterator: the item fails at the latest in the [for]-[of] of the
    vision scan (an array-like object may fail earlier, in the index
    loop of the validation); this is rendered as [TypeError] here. *)
Definition prepareMessages (i : nat) (p : NodeParameters) : M JValue :=
  let* messages := parseMessages p in
  let* messages := withDefaultMessage messages in
  match messages with
  | JArr msgs =>
      let* _ := forEachM (validateMessage i) msgs in
      let* msgs := mapM normalizeMessage msgs in
      ret (JArr msgs)
  | JObj _ => throw TypeError
  | _ => ret messages
  end.


(** *** Vision detection *)

(** [/\[.*image.*\]/i]: the tail [.*\]] ... *)
Fixpoint closesOnLine (s : string) : bool :=
  match s with
  | EmptyString => false
  | String c t =>
      if Ascii.eqb c "]" then true
      else if JsString.isLineTerminator c then false
      else closesOnLine t
  end.

(** ... the part [.*image.*\]] after the opening bracket ... *)
Fixpoint imageThenClose (s : string) : bool :=
  (JsString.startsWithCI "image" s && closesOnLine (JsString.drop 5 s)) ||
  match s with
  | EmptyString => false
  | String c t => if JsString.isLineTerminator c then false else imageThenClose t
  end.

(** ... and the search for an opening bracket. *)
Fixpoint matchesBracketImage (s : string) : bool :=
  match s with
  | EmptyString => false
  | String c t => (Ascii.eqb c "[" && imageThenClose t) || matchesBracketImage t
  end.

Definition stringHasImage (content : string) : bool :=
  JsString.includes "data:image/" content
  || matchesBracketImage content
  || JsString.startsWith "copilot-file://" content.

Definition partIsImage (part : JValue) : bool :=
  isStr (getOpt part "type") "image_url"
  || isStr (getOpt part "type") "image"
  || truthy (getOpt part "image_url")
  || isStr (getOpt part "type") "file".

Definition messageHasVision (msg : JValue) : M bool :=
  match get msg "content", get msg "type" with
  | Some content, Some type =>
      if isStr type "file" || isStr type "image" then ret true
      else
        match content with
        | JStr s => ret (stringHasImage s)
        | JArr parts => ret (existsb partIsImage parts)
        | _ => ret false
        end
  | _, _ => throw TypeError
  end.

(** The loop stops at the first message that has vision content. *)
Fixpoint scanMessages (msgs : list JValue) : M bool :=
  match msgs with
  | [] => ret false
  | msg :: rest =>
      let* found := messageHasVision msg in
      if found then ret true else scanMessages rest
  end.

(** [hasVisionContent] after the scan.  The characters of a string
    have neither [content] nor [type]; other values are not
    iterable. *)
Definition hasVisionContent (messages : JValue) : M bool :=
  match messages with
  | JArr msgs => scanMessages msgs
  | JStr _ => ret false
  | _ => throw TypeError
  end.

(** *** Vision fallback *)

Definition staticSupportsVision (copilotModel : string) : bool :=
  let modelInfo := getModelByValue copilotModel in
  let capabilities := getOpt modelInfo "capabilities" in
  truthy (orElse (getOpt capabilities "vision") (getOpt capabilities "multimodal")).

Definition noFallbackMessage : string :=
  "Vision fallback enabled but no fallback model was selected or provided. Please select a vision-capable model in Advanced Options.".

Definition visionUnsupportedMessage (copilotModel : string) : string :=
  "Model " ++ copilotModel ++ " does not support vision/image processing. Enable "
  ++ q "Vision Fallback"
  ++ " in Advanced Options and select a vision-capable model, or choose a model with vision capabilities.".

(** [supportsVision]: the cached listing first, the static table
    when the cache does not know the model. *)
Definition supportsVision (oauthToken : JValue) (w : DynamicModelsManager.World)
           (copilotModel : string) : M bool :=
  let* cached := fst (DynamicModelsManager.modelSupportsVision oauthToken copilotModel w) in
  match cached with
  | Some known => ret known
  | None => ret (staticSupportsVision copilotModel)
  end.

(** The body of [if (hasVisionContent) { ... }]: the model id to
    send.  [credentials] is the outcome of [getCredentials]. *)
Definition visionFallback (i : nat) (credentials : M JValue)
           (w : DynamicModelsManager.World) (advancedOptions : JValue)
           (copilotModel : string) : M string :=
  let* credentials := credentials in
  match get credentials "oauthToken" with
  | None => throw TypeError
  | Some oauthToken =>
      let* supportsVision := supportsVision oauthToken w copilotModel in
      if supportsVision then ret copilotModel
      else if truthy (getOpt advancedOptions "enableVisionFallback") then
        let fallbackModelRaw := getOpt advancedOptions "visionFallbackModel" in
        let fallbackModel :=
          if isStr fallbackModelRaw "__manual__"
          then getOpt advancedOptions "visionFallbackCustomModel"
          else fallbackModelRaw in
        requireText fallbackModel (NodeOperationError noFallbackMessage i None)
      else
        throw (NodeOperationError (visionUnsupportedMessage copilotModel) i None)
  end.

(** The [try] block of item [i] up to the call of [makeApiRequest]. *)
Definition prepareRequest (i : nat) (p : NodeParameters) (credentials : M JValue)
           (w : DynamicModelsManager.World) : M Request :=
  let* model := requestedModel p in
  let* messages := prepareMessages i p in
  match get (advancedOptions p) "tools" with
  | None => throw TypeError
  | Some _ =>
      let copilotModel := mapModel model in
      let* hasVision := hasVisionContent messages in
      let* copilotModel :=
        (if hasVision
         then visionFallback i credentials w (advancedOptions p) copilotModel
         else ret copilotModel) in
      ret (mkRequest copilotModel messages hasVision)
  end.

(** *** The [catch] block *)

(** What the [catch] block reads of the value it caught:
    [error instanceof Error] and [error.message]; [error.cause] when
    [error] is an object with a [cause] member ([undefined]
    otherwise); and the text [JSON.stringify(error)] (empty when
    there is none: the extraction then finds nothing in it). *)
Record CaughtError : Type := mkCaught {
  instanceofError : bool;
  message : string;
  cause : JValue;
  errorString : string
}.

Fixpoint spanLength (f : ascii -> bool) (s : string) : nat :=
  match s with
  | EmptyString => O
  | String c t => if f c then S (spanLength f t) else O
  end.

Fixpoint take (n : nat) (s : string) : string :=
  match n, s with
  | S n', String c t => String c (take n' t)
  | _, _ => EmptyString
  end.

(** Length of the match of [/\[Token used: [^\]]+\]/] at the head of
    [s], if there is one. *)
Definition matchTokenNote (s : string) : option nat :=
  let opening := "[Token used: " in
  if JsString.startsWith opening s then
    let rest := JsString.drop (String.length opening) s in
    let n := spanLength (fun c => negb (Ascii.eqb c "]")) rest in
    if Nat.ltb 0 n && JsString.startsWith "]" (JsString.drop n rest)
    then Some (String.length opening + n + 1)%nat
    else None
  else None.

(** Length of the match of [/\[Attempt: \d+\/\d+\]/] at the head of
    [s], if there is one. *)
Definition matchAttemptNote (s : string) : option nat :=
  let opening := "[Attempt: " in
  if JsString.startsWith opening s then
    let rest := JsString.drop (String.length opening) s in
    let n1 := spanLength JsString.isDigit rest in
    let rest1 := JsString.drop n1 rest in
    let rest2 := JsString.drop 1 rest1 in
    let n2 := spanLength JsString.isDigit rest2 in
    if Nat.ltb 0 n1 && JsString.startsWith "/" rest1
       && Nat.ltb 0 n2 && JsString.startsWith "]" (JsString.drop n2 rest2)
    then Some (String.length opening + n1 + 1 + n2 + 1)%nat
    else None
  else None.

(** [s.replace(re, '')] with the [g] flag, for a pattern whose
    matches are given by [matchAt] and are never empty; [skip] counts
    the characters of the current match still to drop. *)
Fixpoint removeAll (matchAt : string -> option nat) (skip : nat) (s : string)
  : string :=
  match s with
  | EmptyString => EmptyString
  | String c t =>
      match skip with
      | S k => removeAll matchAt k t
      | O =>
          match matchAt s with
          | Some (S k) => removeAll matchAt k t
          | _ => String c (removeAll matchAt O t)
          end
      end
  end.

(** [s.replace(/^GitHub Copilot API error:\s*/i, '')] *)
Definition removeApiErrorPrefix (s : string) : string :=
  let opening := "GitHub Copilot API error:" in
  if JsString.startsWithCI opening s
  then JsString.trimStart (JsString.drop (String.length opening) s)
  else s.

(** [s.replace(/\s+/g, ' ')] *)
Fixpoint collapseSpaces (inRun : bool) (s : string) : string :=
  match s with
  | EmptyString => EmptyString
  | String c t =>
      if JsString.isWhiteSpace c
      then (if inRun then collapseSpaces true t
            else String " " (collapseSpaces true t))
      else String c (collapseSpaces false t)
  end.

Definition cleanErrorMessage (errorMessage : string) : string :=
  let cleanMessage := errorMessage in
  let cleanMessage := JsString.trim (removeAll matchTokenNote O cleanMessage) in
  let cleanMessage := JsString.trim (removeAll matchAttemptNote O cleanMessage) in
  let cleanMessage := JsString.trim (removeApiErrorPrefix cleanMessage) in
  JsString.trim (collapseSpaces false cleanMessage).

(** Leftmost match of [/\{[^{}]*"error"[^{}]*\}/]: an opening brace,
    a brace-free stretch that holds the quoted word, a closing
    brace. *)
Definition notBrace (c : ascii) : bool :=
  negb (Ascii.eqb c "{" || Ascii.eqb c "}").

Fixpoint matchErrorObject (s : string) : option string :=
  match s with
  | EmptyString => None
  | String c t =>
      let n := spanLength notBrace t in
      if Ascii.eqb c "{"
         && JsString.startsWith "}" (JsString.drop n t)
         && JsString.includes (q "error") (take n t)
      then Some ("{" ++ take n t ++ "}")
      else matchErrorObject t
  end.

(** The value of [apiError] after the extraction block. *)
Definition extractApiError (error : CaughtError) : JValue :=
  let apiError :=
    if truthy (cause error) && truthy (getOpt (cause error) "error")
    then getOpt (cause error) "error" else JNull in
  if negb (truthy apiError)
     && JsString.includes "{" (errorString error)
     && JsString.includes "}" (errorString error)
  then
    match matchErrorObject (errorString error) with
    | Some jsonMatch =>
        match JSON_parse (JStr jsonMatch) with
        | inr parsed => parsed
        | inl _ => apiError
        end
    | None => apiError
    end
  else apiError.

Definition errorMessageOf (error : CaughtError) : string :=
  if instanceofError error then message error else "Unknown error".

Definition is400Error (lowerMessage : string) (apiError : JValue) : bool :=
  JsString.includes "400" lowerMessage
  || JsString.includes "bad request" lowerMessage
  || (truthy apiError
      && truthy (getOpt apiError "error")
      && isStr (getOpt (getOpt apiError "error") "code") "invalid_request_body").

Definition badRequestError (i : nat) (cleanMessage : string) : Exn :=
  NodeOperationError ("Bad Request (400): " ++ cleanMessage) i
    (Some "The request was malformed or contains invalid parameters. Retrying will not help.").

(** The members [message], [type], [param], [code] of the reported
    error, in this order. *)
Definition errorDetails (cleanMessage lowerMessage : string) (apiError : JValue)
  : JValue * JValue * JValue * JValue :=
  let has (w : string) := JsString.includes w lowerMessage in
  if truthy apiError && truthy (getOpt apiError "error") then
    let e := getOpt apiError "error" in
    (orElse (getOpt e "message") (JStr cleanMessage),
     orElse (getOpt e "type") (JStr "invalid_request_error"),
     orElse (getOpt e "param") JNull,
     orElse (getOpt e "code") JNull)
  else if has "403" || has "forbidden" then
    (JStr (if has "access" && has "forbidden"
           then "You exceeded your current quota, please check your plan and billing details."
           else cleanMessage),
     JStr "invalid_request_error", JNull, JStr "insufficient_quota")
  else if has "max" && has "token" then
    (JStr "This model's maximum context length is exceeded. Please reduce the length of the messages or completion.",
     JStr "invalid_request_error", JStr "max_tokens", JStr "context_length_exceeded")
  else if has "401" || has "unauthorized" then
    (JStr "Incorrect API key provided. You can find your API key at https://platform.openai.com/account/api-keys.",
     JStr "invalid_request_error", JNull, JStr "invalid_api_key")
  else if has "429" || has "rate limit" then
    (JStr "Rate limit reached. Please wait before making more requests.",
     JStr "rate_limit_error", JNull, JStr "rate_limit_exceeded")
  else if has "timeout" then
    (JStr "Request timeout. Please try again.",
     JStr "api_error", JNull, JStr "timeout")
  else
    (JStr cleanMessage, JStr "api_error", JNull, JStr "internal_error").

Definition pairedItem (i : nat) : JValue := JObj [("item", JNum (Z.of_nat i))].

Definition errorItem (i : nat) (d : JValue * JValue * JValue * JValue) : JValue :=
  let '(finalMessage, errorType, errorParam, errorCode) := d in
  JObj [ ("json",
          JObj [ ("error",
                  JObj [ ("message", finalMessage);
                         ("type", errorType);
                         ("param", errorParam);
                         ("code", errorCode) ]) ]);
         ("pairedItem", pairedItem i) ].

(** How a [catch] block ends: [returnData.push(item)] and on to the
    next item, [throw new NodeOperationError(...)], or [throw error]. *)
Inductive Handled : Type :=
| Pushed (item : JValue)
| ThrowsNew (e : Exn)
| Rethrows (error : CaughtError).

Definition handleError (continueOnFail : bool) (i : nat) (error : CaughtError)
  : Handled :=
  if continueOnFail then
    let cleanMessage := cleanErrorMessage (errorMessageOf error) in
    let apiError := extractApiError error in
    let lowerMessage := JsString.toLowerCase cleanMessage in
    if is400Error lowerMessage apiError
    then ThrowsNew (badRequestError i cleanMessage)
    else Pushed (errorItem i (errorDetails cleanMessage lowerMessage apiError))
  else Rethrows error.

(** *** The loop over the items *)

(** How the [try] block of an item ends: with the OpenAI-style
    response object built from the reply, or with a thrown value. *)
Inductive ItemOutcome : Type :=
| Succeeded (openAIResponse : JValue)
| Failed (error : CaughtError).

Inductive Completion : Type :=
| Returns (data : list (list JValue))
| Throws (e : Exn)
| ThrowsCaught (error : CaughtError).

Definition responseItem (i : nat) (openAIResponse : JValue) : JValue :=
  JObj [("json", openAIResponse); ("pairedItem", pairedItem i)].

(** The [for] loop from item [i] on, [returnData] holding the items
    pushed so far. *)
Fixpoint executeFrom (continueOnFail : bool) (i : nat)
         (outcomes : list ItemOutcome) (returnData : list JValue) : Completion :=
  match outcomes with
  | [] => Returns [returnData]
  | Succeeded r :: rest =>
      executeFrom continueOnFail (S i) rest (returnData ++ [responseItem i r])
  | Failed error :: rest =>
      match handleError continueOnFail i error with
      | Pushed item => executeFrom continueOnFail (S i) rest (returnData ++ [item])
      | ThrowsNew e => Throws e
      | Rethrows e => ThrowsCaught e
      end
  end.

Definition execute (continueOnFail : bool) (outcomes : list ItemOutcome) : Completion :=
  executeFrom continueOnFail O outcomes [].

End Host.

End GitHubCopilotOpenAI.

(* ================================================================== *)
(** ** Notions used in the statements, and sample data *)
(* ================================================================== *)

Module Notions.
Import Js Exc DynamicModelsManager.

(** Every entry the manager writes expires [CACHE_DURATION_MS] after
    it was fetched. *)
Definition wellTimed (w : World) : Prop :=
  forall k c, cache w !! k = Some c -> expiresAt c = fetchedAt c + CACHE_DURATION_MS.

(** A degenerate credential: the empty string, [null], [undefined],
    or a value that is not a string. *)
Definition degenerate (token : JValue) : bool :=
  match token with
  | JStr (String _ _) => false
  | _ => true
  end.

(** The first descriptor of a listing that carries the id. *)
Definition descriptorOf (modelId : string) (listing : list CopilotModel)
  : option CopilotModel :=
  List.find (fun m => String.eqb (id m) modelId) listing.

(** A string payload that holds a base64 image data URL whose encoded
    data has at least [threshold] characters. *)
Definition holdsImageDataUrl (threshold : nat) (content : string) : Prop :=
  exists before subtype data after,
    content = before ++ "data:image/" ++ subtype ++ ";base64," ++ data ++ after
    /\ (threshold <= String.length data)%nat.

(** What one message contributes to the vision scan, for a message
    that is neither [null] nor [undefined]. *)
Definition carriesVision (msg : JValue) : bool :=
  let type := getOpt msg "type" in
  isStr type "file" || isStr type "image"
  || match getOpt msg "content" with
     | JStr s => GitHubCopilotOpenAI.stringHasImage s
     | JArr parts => existsb GitHubCopilotOpenAI.partIsImage parts
     | _ => false
     end.

(** The fallback model id that the advanced options configure. *)
Definition configuredFallback (advancedOptions : JValue) : JValue :=
  if isStr (getOpt advancedOptions "visionFallbackModel") "__manual__"
  then getOpt advancedOptions "visionFallbackCustomModel"
  else getOpt advancedOptions "visionFallbackModel".

(** The [catch] block recognises the error as a 400 Bad Request. *)
Definition badRequest (JSON_parse : JValue -> string + JValue)
           (error : GitHubCopilotOpenAI.CaughtError) : bool :=
  GitHubCopilotOpenAI.is400Error
    (JsString.toLowerCase
       (GitHubCopilotOpenAI.cleanErrorMessage (GitHubCopilotOpenAI.errorMessageOf error)))
    (GitHubCopilotOpenAI.extractApiError JSON_parse error).

(** The shape of an error item of the output. *)
Definition openAIError (i : nat) (message type param code : JValue) : JValue :=
  JObj [ ("json",
          JObj [ ("error",
                  JObj [ ("message", message); ("type", type);
                         ("param", param); ("code", code) ]) ]);
         ("pairedItem", JObj [("item", JNum (Z.of_nat i))]) ].

(** What the loop pushes for the item of index [i], when it pushes. *)
Definition pushedFor (JSON_parse : JValue -> string + JValue) (i : nat)
           (outcome : GitHubCopilotOpenAI.ItemOutcome) : JValue :=
  match outcome with
  | GitHubCopilotOpenAI.Succeeded r => GitHubCopilotOpenAI.responseItem i r
  | GitHubCopilotOpenAI.Failed error =>
      let cleanMessage :=
        GitHubCopilotOpenAI.cleanErrorMessage (GitHubCopilotOpenAI.errorMessageOf error) in
      GitHubCopilotOpenAI.errorItem i
        (GitHubCopilotOpenAI.errorDetails cleanMessage
           (JsString.toLowerCase cleanMessage)
           (GitHubCopilotOpenAI.extractApiError JSON_parse error))
  end.

Fixpoint pushedFrom (JSON_parse : JValue -> string + JValue) (i : nat)
         (outcomes : list GitHubCopilotOpenAI.ItemOutcome) : list JValue :=
  match outcomes with
  | [] => []
  | o :: rest => pushedFor JSON_parse i o :: pushedFrom JSON_parse (S i) rest
  end.

(** The ids that [modelMapping] rewrites to another id. *)
Definition aliases : list string :=
  ["gpt-4"; "gpt-4-turbo"; "claude-3-5-sonnet"; "claude-3.5-sonnet-20241022"].

(** The id under which a requested id is sent: the two OpenAI aliases
    go out as [gpt-4o], the two Claude aliases as [claude-3.5-sonnet],
    every other id as it is. *)
Definition sentAs (model : string) : string :=
  if String.eqb model "gpt-4" || String.eqb model "gpt-4-turbo"
  then "gpt-4o"
  else if String.eqb model "claude-3-5-sonnet"
          || String.eqb model "claude-3.5-sonnet-20241022"
  then "claude-3.5-sonnet"
  else model.

(** [v] is an object whose member [k] is [x] ([undefined] when the
    object has no such member). *)
Definition member (k : string) (v x : JValue) : Prop :=
  exists props, v = JObj props /\ assoc k props = x.

(** The falsy values. *)
Definition falsy : list JValue :=
  [JUndefined; JNull; JBool false; JNum 0; JStr EmptyString].

(** A descriptor declares vision support: the [supports] member of its
    capabilities has the member [vision] set to [true], or the [limits]
    member of its capabilities has a member [vision] that is not
    falsy. *)
Definition visionDeclared (model : CopilotModel) : Prop :=
  (exists supports,
      member "supports" (capabilities model) supports
      /\ member "vision" supports (JBool true))
  \/ (exists limits flag,
         member "limits" (capabilities model) limits
         /\ member "vision" limits flag
         /\ ~ In flag falsy).

End Notions.

Module Sample.
Import Js Exc DynamicModelsManager.

Definition token : JValue := JStr "gho_sampletoken".

Definition gpt4o : CopilotModel :=
  mkModel "gpt-4o" "GPT-4o"
    (JObj [("supports", JObj [("vision", JBool true); ("tool_calls", JBool true)])]).

Definition gpt4oMini : CopilotModel :=
  mkModel "gpt-4o-mini" "GPT-4o mini"
    (JObj [("supports", JObj [("tool_calls", JBool true)])]).

Definition listing : list CopilotModel := [gpt4o; gpt4oMini].

Definition emptyWorld : World := mkWorld ∅ [].

(** The listing was fetched at time 0; it expires one hour later. *)
Definition cachedWorld : World :=
  mkWorld {[ hashToken token := mkCache listing 0 CACHE_DURATION_MS (hashToken token) ]} [].

(** Stand-ins for the host functions. *)
Definition JSON_parse (v : JValue) : string + JValue :=
  match v with
  | JStr "[]" => inr (JArr [])
  | _ => inl "Unexpected token"
  end.

Definition JSON_stringify (v : JValue) : string := "{}".

Definition getModelByValue (modelId : string) : JValue :=
  if String.eqb modelId "gpt-4o"
  then JObj [("capabilities", JObj [("vision", JBool true)])]
  else if String.eqb modelId "gpt-4o-mini"
  then JObj [("capabilities", JObj [])]
  else JUndefined.

Definition userMessage (content : string) : JValue :=
  JObj [("role", JStr "user"); ("content", JStr content)].

(** The item parameters of a node in JSON mode. *)
Definition jsonParams (model : string) (msgs : list JValue) (advancedOptions : JValue)
  : GitHubCopilotOpenAI.NodeParameters :=
  GitHubCopilotOpenAI.mkParams "fromList" (JStr "") model "json" (JArr msgs)
    (JObj [("message", JArr [])]) advancedOptions.

Definition credentials : M JValue := inr (JObj [("oauthToken", token)]).

Definition fallbackOptions (enabled : bool) (fallbackModel : string) : JValue :=
  JObj [("enableVisionFallback", JBool enabled);
        ("visionFallbackModel", JStr fallbackModel)].

(** Errors as the [catch] block may meet them. *)
Definition timeoutError : GitHubCopilotOpenAI.CaughtError :=
  GitHubCopilotOpenAI.mkCaught true
    "GitHub Copilot API error: Request timeout [Attempt: 3/3]" JUndefined "{}".

Definition rejectedError : GitHubCopilotOpenAI.CaughtError :=
  GitHubCopilotOpenAI.mkCaught true
    "GitHub Copilot API error: 400 Bad Request [Token used: gho_...abcde]" JUndefined "{}".

Definition invalidBodyError : GitHubCopilotOpenAI.CaughtError :=
  GitHubCopilotOpenAI.mkCaught true "Request failed"
    (JObj [("error",
            JObj [("error",
                   JObj [("message", JStr "invalid request body");
                         ("code", JStr "invalid_request_body")])])])
    "{}".

(** A data URL with 60 characters of payload, and one with 4. *)
Definition picture : string :=
  "data:image/png;base64," ++ "AAAAAAAAAAAAAAAAAAAAAAAAAAAAAAAAAAAAAAAAAAAAAAAAAAAAAAAAAAAA".

Definition shortPicture : string := "data:image/png;base64,AAAA".

End Sample.

(* ================================================================== *)
(** ** DynamicModelsManager: the other queries *)
(* ================================================================== *)

Module ModelQueries.
Import Js Exc DynamicModelsManager.



Section Billing.
(** [model.billing?.is_premium] and the text of [model.billing?.multiplier]
    in a template string ([None] when it is [undefined]): the descriptor
    record does not carry the [billing] member. *)
Variable is_premium : CopilotModel -> JValue.
Variable multiplierText : CopilotModel -> option string.


(** [getCostMultiplier]: the billing data when the API gave it, an
    estimate from the id otherwise. *)
Definition getCostMultiplier (model : CopilotModel) : string :=
  match multiplierText model with
  | Some multiplier => multiplier ++ "x"
  | None =>
      let id := JsString.toLowerCase (id model) in
      let equals (s : string) := String.eqb id s in
      let startsWith (s : string) := JsString.startsWith s id in
      let includes (s : string) := JsString.includes s id in
      if equals "gpt-4.1" || startsWith "gpt-4.1-" then "0x"
      else if equals "gpt-4o" || startsWith "gpt-4o-" then "0x"
      else if equals "gpt-4" || equals "gpt-4-0613" then "0x"
      else if equals "gpt-5-mini" then "0x"
      else if equals "gpt-4o-mini" || startsWith "gpt-4o-mini-" then "0x"
      else if includes "grok" && includes "fast" then "0x"
      else if equals "oswe-vscode-prime" || includes "oswe-vscode" then "0x"
      else if includes "haiku" then "0.33x"
      else if includes "flash" then "0.33x"
      else if includes "codex-mini" then "0.33x"
      else if equals "claude-opus-41" || equals "claude-opus-4.1" then "10x"
      else if includes "opus" then "3x"
      else "1x"
  end.

End Billing.

(** The object returned by [getCacheInfo]. *)
Record CacheInfo : Type := mkCacheInfo {
  cached : bool;
  modelsCount : nat;
  expiresIn : Z;
  fetchedAt : string
}.

Section Clock.
(** [new Date(ms).toISOString()], for the time stamps that the manager
    stores. *)
Variable toISOString : Z -> string.

(** [getCacheInfo(oauthToken)] called when the clock reads [now]. *)
Definition getCacheInfo (oauthToken : JValue) (now : Z) : ST (option CacheInfo) :=
  fun w =>
    match cache w !! hashToken oauthToken with
    | None => (ret None, w)
    | Some c =>
        (ret (Some (mkCacheInfo true
                      (length (models c))
                      (Z.max 0 (expiresAt c - now))
                      (toISOString (DynamicModelsManager.fetchedAt c)))), w)
    end.

End Clock.

End ModelQueries.

(* ================================================================== *)
(** ** The node: response format and reply clean-up *)
(* ================================================================== *)

Module ResponseFormat.
Import Js Exc GitHubCopilotOpenAI.

Section Host.
Variable JSON_parse : JValue -> string + JValue.

(** The value of [response_format] after the three-way choice: the
    request body received in JSON mode ([requestBodyFromJson],
    [undefined] when there is none), the UI field, the legacy JSON text
    in [advancedOptions]. *)
Definition response_format (requestBodyFromJson advancedOptions : JValue) : JValue :=
  let response_format_ui :=
    orElse (getOpt advancedOptions "response_format") (JStr "text") in
  if truthy (getOpt requestBodyFromJson "response_format")
  then getOpt requestBodyFromJson "response_format"
  else if truthy response_format_ui && negb (isStr response_format_ui "text")
  then JObj [("type", response_format_ui)]
  else
    match getOpt advancedOptions "response_format" with
    | JStr s =>
        if JsString.isEmpty s then JUndefined
        else
          match JSON_parse (JStr s) with
          | inr parsed => parsed
          | inl _ => JUndefined
          end
    | _ => JUndefined
    end.

End Host.

Fixpoint allWhiteSpace (s : string) : bool :=
  match s with
  | EmptyString => true
  | String c t => JsString.isWhiteSpace c && allWhiteSpace t
  end.

Definition fence : string := "```".

(** A line feed and the closing fence. *)
Definition closing : string := nl ++ fence.

(** The tail [\n```\s*$] of the pattern, at the head of [s]. *)
Definition closesBlock (s : string) : bool :=
  JsString.startsWith (nl ++ fence) s && allWhiteSpace (JsString.drop 4 s).

(** The lazy group [([\s\S]*?)] followed by the tail: the shortest
    capture after which the block closes. *)
Fixpoint lazyCapture (s : string) : option string :=
  if closesBlock s then Some EmptyString
  else
    match s with
    | EmptyString => None
    | String c t =>
        match lazyCapture t with
        | Some captured => Some (String c captured)
        | None => None
        end
    end.

(** [\s*\n] followed by the rest of the pattern: the greedy [\s*] gives
    back one character at a time until a line feed follows and the rest
    matches. *)
Fixpoint afterOpening (s : string) : option string :=
  match s with
  | EmptyString => None
  | String c t =>
      if JsString.isWhiteSpace c then
        match afterOpening t with
        | Some captured => Some captured
        | None => if Ascii.eqb c (ascii_of_N 10) then lazyCapture t else None
        end
      else None
  end.

(** The group 1 of the match of
    [/^```(?:json)?\s*\n([\s\S]*?)\n```\s*$/], if the text matches. *)
Definition matchJsonBlock (s : string) : option string :=
  if JsString.startsWith fence s then
    let rest := JsString.drop 3 s in
    match (if JsString.startsWith "json" rest
           then afterOpening (JsString.drop 4 rest) else None) with
    | Some captured => Some captured
    | None => afterOpening rest
    end
  else None.

(** [cleanJsonFromMarkdown]: anything but a string that is not empty is
    returned as it is. *)
Definition cleanJsonFromMarkdown (content : JValue) : JValue :=
  match content with
  | JStr (String c t) =>
      let trimmed := JsString.trim (String c t) in
      match matchJsonBlock trimmed with
      | Some (String c1 t1) => JStr (JsString.trim (String c1 t1))
      | _ => JStr trimmed
      end
  | _ => content
  end.

End ResponseFormat.

(* ================================================================== *)
(** ** Histories of calls *)
(* ================================================================== *)

Module Histories.
Import Js Exc DynamicModelsManager.

(** One use of the manager by a caller. *)
Inductive Call : Type :=
| GetModels (oauthToken : JValue) (now : Z) (r : Response)
| Clear (oauthToken : JValue)
| ClearAll.

Definition after (w : World) (c : Call) : World :=
  match c with
  | GetModels oauthToken now r => snd (getAvailableModels oauthToken now r w)
  | Clear oauthToken => snd (clearCache oauthToken w)
  | ClearAll => snd (clearAllCache w)
  end.

(** The world after a sequence of calls, starting from [w]. *)
Definition afterAll (calls : list Call) (w : World) : World :=
  fold_left after calls w.

End Histories.

(* ================================================================== *)
(** ** Notions about messages and texts *)
(* ================================================================== *)

Module MessageNotions.
Import Js Exc.

(** A part of type ['file'] sits in the content array of the message. *)
Definition hasFilePart (msg : JValue) : bool :=
  match getOpt msg "content" with
  | JArr parts => existsb (fun part => isStr (getOpt part "type") "file") parts
  | _ => false
  end.

(** Neither the message nor a part of its content array is [null] or
    [undefined]. *)
Definition partsDefined (msg : JValue) : bool :=
  negb (isNullish msg) &&
  match getOpt msg "content" with
  | JArr parts => forallb (fun part => negb (isNullish part)) parts
  | _ => true
  end.



(** No line feed and no carriage return: what [.*] can run over. *)
Fixpoint oneLine (s : string) : Prop :=
  match s with
  | EmptyString => True
  | String c t => c <> ascii_of_N 10 /\ c <> ascii_of_N 13 /\ oneLine t
  end.

(** The word image, each letter in either case. *)
Definition spellsImage (word : string) : Prop :=
  exists i m a g e,
    word = String i (String m (String a (String g (String e EmptyString))))
    /\ (i = "i" \/ i = "I")%char /\ (m = "m" \/ m = "M")%char
    /\ (a = "a" \/ a = "A")%char /\ (g = "g" \/ g = "G")%char
    /\ (e = "e" \/ e = "E")%char.

(** A match of [/\[.*image.*\]/i]: an opening bracket, the word image
    in any case, a closing bracket, with no line break from the one
    bracket to the other. *)
Definition bracketImage (s : string) : Prop :=
  exists before left word right after,
    s = before ++ "[" ++ left ++ word ++ right ++ "]" ++ after
    /\ oneLine left /\ spellsImage word /\ oneLine right.

(** A content part that counts as an image: its type is [image_url],
    [image] or [file], or it has a member [image_url] that is not
    falsy. *)
Definition imagePart (part : JValue) : Prop :=
  getOpt part "type" = JStr "image_url"
  \/ getOpt part "type" = JStr "image"
  \/ getOpt part "type" = JStr "file"
  \/ ~ In (getOpt part "image_url") Notions.falsy.

(** Whitespace occurs only as single blanks: [prev] tells whether the
    character before was a blank. *)
Fixpoint singleSpaced (prev : bool) (s : string) : bool :=
  match s with
  | EmptyString => true
  | String c t =>
      if JsString.isWhiteSpace c
      then negb prev && Ascii.eqb c " " && singleSpaced true t
      else singleSpaced false t
  end.

End MessageNotions.

(* ================================================================== *)
(** ** More sample data *)
(* ================================================================== *)

Module MoreSamples.
Import Js Exc.

(** A message with an OpenAI-style file part inside its content. *)
Definition fileInContent : JValue :=
  JObj [("role", JStr "user");
        ("content",
         JArr [JObj [("type", JStr "text"); ("text", JStr "Analyze this")];
               JObj [("type", JStr "file"); ("file", JStr "data:...")]])].



(** The item parameters of a node in manual mode, with one entry of
    type [file]. *)
Definition manualParams : GitHubCopilotOpenAI.NodeParameters :=
  GitHubCopilotOpenAI.mkParams "fromList" (JStr "") "gpt-4o" "manual" (JStr "[]")
    (JObj [("message",
            JArr [JObj [("role", JStr "user");
                        ("content", JStr "what is in this file?");
                        ("type", JStr "file")]])])
    (JObj []).

(** A reply wrapped in a Markdown code block. *)
Definition fencedReply : string :=
  "```json" ++ GitHubCopilotOpenAI.nl ++ "{ }" ++ GitHubCopilotOpenAI.nl ++ "```".

End MoreSamples.

(* ================================================================== *)
(** ** Notions about cache keys *)
(* ================================================================== *)

Module KeyNotions.

(** The polynomial [c1 * 31^(n-1) + ... + cn] on top of [h * 31^n],
    without any wrap-around. *)
Fixpoint polynomial (h : Z) (token : string) : Z :=
  match token with
  | EmptyString => h
  | String c rest => polynomial (31 * h + JsString.code c) rest
  end.

(** The value of a base-36 digit, and of a numeral read from the left. *)
Definition digitValue (c : ascii) : Z :=
  let n := JsString.code c in if n <? 58 then n - 48 else n - 87.

Fixpoint readBase36 (value : Z) (numeral : string) : Z :=
  match numeral with
  | EmptyString => value
  | String c rest => readBase36 (value * 36 + digitValue c) rest
  end.

End KeyNotions.

(* ================================================================== *)
(** * Properties of the model cache *)
(* ================================================================== *)

Section CacheProperties.
Import Js Exc DynamicModelsManager Notions.

Implicit Types (oauthToken : JValue) (now : Z) (r : Response) (w : World)
               (c : ModelCache).

Lemma wellTimed_empty (log : list JValue) : wellTimed (mkWorld ∅ log).
Proof. intros k c H. simpl in H. rewrite lookup_empty in H. discriminate. Qed.

Lemma getAvailableModels_wellTimed oauthToken now r w :
  wellTimed w -> wellTimed (snd (getAvailableModels oauthToken now r w)).
Proof.
  intros Hw. unfold getAvailableModels, fetchModelsFromAPI, throw, ret.
  assert (Hins : forall ms log,
    wellTimed (mkWorld (<[hashToken oauthToken :=
                 mkCache ms now (now + CACHE_DURATION_MS) (hashToken oauthToken)]> (cache w)) log)).
  { intros ms log k c'. simpl.
    destruct (decide (hashToken oauthToken = k)) as [Heq|Hne].
    - rewrite Heq, lookup_insert_eq. intros [= <-]. reflexivity.
    - rewrite lookup_insert_ne by assumption. apply Hw. }
  destruct (cache w !! hashToken oauthToken) as [c|].
  - destruct (expiresAt c >? now); [exact Hw|].
    destruct (now - fetchedAt c <? MIN_REFRESH_INTERVAL_MS); [exact Hw|].
    destruct r; simpl; solve [apply Hins | exact Hw].
  - destruct r; simpl; solve [apply Hins | exact Hw].
Qed.

(** A fresh entry answers the call; nothing else happens. *)
Lemma getAvailableModels_fresh oauthToken now r w c :
  cache w !! hashToken oauthToken = Some c ->
  now < expiresAt c ->
  getAvailableModels oauthToken now r w = (inr (models c), w).
Proof.
  intros Hc Hlt. unfold getAvailableModels. rewrite Hc.
  destruct (Z.gtb_spec (expiresAt c) now); [reflexivity | lia].
Qed.

(** A call that returns a listing leaves that listing in the cache. *)
Lemma getAvailableModels_cached oauthToken now r w ms w' :
  getAvailableModels oauthToken now r w = (inr ms, w') ->
  exists c, cache w' !! hashToken oauthToken = Some c /\ models c = ms.
Proof.
  unfold getAvailableModels, fetchModelsFromAPI, throw, ret.
  destruct (cache w !! hashToken oauthToken) as [c|] eqn:Hc.
  - destruct (expiresAt c >? now).
    { intros [= <- <-]. eauto. }
    destruct (now - fetchedAt c <? MIN_REFRESH_INTERVAL_MS).
    { intros [= <- <-]. eauto. }
    destruct r; simpl; intros [= <- <-]; simpl; eauto.
    rewrite lookup_insert_eq. eauto.
  - destruct r; simpl; intros H; try discriminate.
    injection H as <- <-. simpl. rewrite lookup_insert_eq. eauto.
Qed.

(** For an entry written by the manager the cooldown test cannot
    succeed once the entry has expired: the entry lives an hour, the
    cooldown lasts five minutes, and both are counted from
    [fetchedAt]. *)
Lemma cooldown_never_holds_when_expired c now :
  expiresAt c = fetchedAt c + CACHE_DURATION_MS ->
  (expiresAt c >? now) = false ->
  (now - fetchedAt c <? MIN_REFRESH_INTERVAL_MS) = false.
Proof.
  unfold CACHE_DURATION_MS, MIN_REFRESH_INTERVAL_MS. intros He Hx.
  destruct (Z.gtb_spec (expiresAt c) now); [discriminate|].
  destruct (Z.ltb_spec (now - fetchedAt c) (5 * 60 * 1000)); [lia | reflexivity].
Qed.

(** Hence every call on an expired entry asks the provider, and a
    failed refresh leaves the entry as it was. *)
Lemma expired_entry_always_refetched oauthToken now r w c :
  cache w !! hashToken oauthToken = Some c ->
  expiresAt c = fetchedAt c + CACHE_DURATION_MS ->
  expiresAt c <= now ->
  failed r = true ->
  getAvailableModels oauthToken now r w
  = (inr (models c), mkWorld (cache w) (fetches w ++ [oauthToken])).
Proof.
  intros Hc He Hx Hf. unfold getAvailableModels. rewrite Hc.
  destruct (Z.gtb_spec (expiresAt c) now); [lia|].
  rewrite cooldown_never_holds_when_expired; auto.
  - destruct r; simpl in *; try discriminate; reflexivity.
  - destruct (Z.gtb_spec (expiresAt c) now); [lia | reflexivity].
Qed.

(** C2.  [getAvailableModels] raises exactly when the provider fails
    and the cache holds no entry (fresh or expired) for the
    credential; when an entry exists, a failing provider is absorbed
    and the cached listing is returned. *)
Theorem getAvailableModels_raises_iff oauthToken now r w :
  (threw (fst (getAvailableModels oauthToken now r w)) = true
   <-> failed r = true /\ cache w !! hashToken oauthToken = None)
  /\ (forall c, cache w !! hashToken oauthToken = Some c ->
                failed r = true ->
                fst (getAvailableModels oauthToken now r w) = inr (models c)).
Proof.
  unfold getAvailableModels, fetchModelsFromAPI, throw, ret.
  destruct (cache w !! hashToken oauthToken) as [c|] eqn:Hc.
  - split.
    + destruct (expiresAt c >? now); [|destruct (now - fetchedAt c <? _)];
        try destruct r; simpl; split; intros H; try discriminate;
        destruct H; discriminate.
    + intros c' [= <-] Hf.
      destruct (expiresAt c >? now); [reflexivity|].
      destruct (now - fetchedAt c <? _); [reflexivity|].
      destruct r; simpl in *; try discriminate; reflexivity.
  - split.
    + destruct r; simpl; split; intros H; auto; try discriminate.
      destruct H; discriminate.
    + intros c' Hc'. discriminate.
Qed.

Lemma getAvailableModels_raises_iff_witness :
  fst (getAvailableModels Sample.token (2 * CACHE_DURATION_MS) (Status "503" "Service Unavailable")
         Sample.cachedWorld)
  = inr Sample.listing.
Proof.
  apply (proj2 (getAvailableModels_raises_iff Sample.token (2 * CACHE_DURATION_MS)
                  (Status "503" "Service Unavailable") Sample.cachedWorld)
               (mkCache Sample.listing 0 CACHE_DURATION_MS (hashToken Sample.token))).
  - vm_compute. reflexivity.
  - reflexivity.
Defined.

(** C3, at the failing input.  The entry fetched at time 0 has
    expired; the provider is down.  Two calls one millisecond apart
    both go out to the provider: the cooldown does not hold the second
    one back. *)
Theorem failed_refresh_is_repeated :
  let down := Unreachable "offline" in
  let '(r1, w1) := getAvailableModels Sample.token CACHE_DURATION_MS down Sample.cachedWorld in
  let '(r2, w2) := getAvailableModels Sample.token (CACHE_DURATION_MS + 1) down w1 in
  r1 = inr Sample.listing /\ r2 = inr Sample.listing
  /\ fetches w2 = [Sample.token; Sample.token].
Proof. vm_compute. auto. Qed.

(** The lookup always returns, and changes nothing. *)
Lemma modelSupportsVision_returns oauthToken modelId w :
  exists answer, modelSupportsVision oauthToken modelId w = (inr answer, w).
Proof.
  unfold modelSupportsVision, getModelFromCache, ret.
  destruct (cache w !! hashToken oauthToken) as [c|]; [|eauto].
  destruct (find _ (models c)); eauto.
Qed.

(** Eviction: after [clearCache] the lookup answers unknown, and
    clearing twice is clearing once. *)
Lemma clearCache_forgets oauthToken modelId w :
  modelSupportsVision oauthToken modelId (snd (clearCache oauthToken w))
  = (inr None, snd (clearCache oauthToken w)).
Proof.
  unfold modelSupportsVision, getModelFromCache, clearCache. simpl.
  rewrite lookup_delete_eq. reflexivity.
Qed.

Lemma clearCache_idempotent oauthToken w :
  snd (clearCache oauthToken (snd (clearCache oauthToken w)))
  = snd (clearCache oauthToken w).
Proof.
  unfold clearCache. simpl. f_equal.
  apply map_eq. intros k. destruct (decide (hashToken oauthToken = k)) as [<-|Hne].
  - rewrite !lookup_delete_eq. reflexivity.
  - rewrite !lookup_delete_ne by assumption. reflexivity.
Qed.

Example one_hour_five_minutes :
  CACHE_DURATION_MS = 3600000 /\ MIN_REFRESH_INTERVAL_MS = 300000.
Proof. split; reflexivity. Qed.

(** What a descriptor declares, read from its capabilities. *)
Lemma nested_member v k x :
  (exists s, member k v s /\ member "vision" s x) ->
  getOpt (orElse (getOpt v k) (JObj [])) "vision" = x.
Proof.
  intros (s & (props & -> & Hs) & (props' & -> & Hx)).
  unfold getOpt at 2. simpl. rewrite Hs. exact Hx.
Qed.

Lemma nested_member_inv v k :
  getOpt (orElse (getOpt v k) (JObj [])) "vision" <> JUndefined ->
  exists s, member k v s
            /\ member "vision" s (getOpt (orElse (getOpt v k) (JObj [])) "vision").
Proof.
  destruct v as [| |b|n|s|items|props]; try (intros H; exfalso; apply H; reflexivity).
  unfold getOpt at 2 4. simpl.
  destruct (assoc k props) as [| |b|n|s|items|sp] eqn:E;
    try (intros H; exfalso; apply H; reflexivity).
  - destruct b; intros H; exfalso; apply H; reflexivity.
  - unfold orElse. simpl. destruct (n =? 0); intros H; exfalso; apply H; reflexivity.
  - destruct s; intros H; exfalso; apply H; reflexivity.
  - intros _. exists (JObj sp). split; [exists props; auto | exists sp; auto].
Qed.

Lemma truthy_not_falsy x : truthy x = true <-> ~ In x falsy.
Proof.
  unfold falsy. split.
  - intros H [<-|[<-|[<-|[<-|[<-|[]]]]]]; discriminate H.
  - intros H. destruct x as [| |b|n|s|items|props]; simpl; try reflexivity.
    + exfalso. apply H. simpl. auto.
    + exfalso. apply H. simpl. auto.
    + destruct b; [reflexivity|]. exfalso. apply H. simpl. auto.
    + destruct (Z.eqb_spec n 0) as [->|]; [|reflexivity]. exfalso. apply H. simpl. auto 6.
    + destruct s; [|reflexivity]. exfalso. apply H. simpl. auto 6.
Qed.

Lemma declaresVision_declared model :
  declaresVision model = true <-> visionDeclared model.
Proof.
  unfold declaresVision, visionDeclared. split.
  - destruct (isTrue _) eqn:H1.
    + intros _. left.
      destruct (nested_member_inv (capabilities model) "supports") as (s & Hs & Hv).
      { intros E. rewrite E in H1. discriminate. }
      exists s. split; [exact Hs|].
      destruct (getOpt _ "vision") as [| |[]| | | |]; try discriminate. exact Hv.
    + destruct (truthy _) eqn:H2; [|discriminate]. intros _. right.
      destruct (nested_member_inv (capabilities model) "limits") as (s & Hs & Hv).
      { intros E. rewrite E in H2. discriminate. }
      exists s, (getOpt (orElse (getOpt (capabilities model) "limits") (JObj [])) "vision").
      split; [exact Hs|]. split; [exact Hv|]. apply truthy_not_falsy. exact H2.
  - intros [(s & Hs & Hv)|(l & flag & Hl & Hv & Hf)].
    + rewrite (nested_member (capabilities model) "supports" (JBool true)) by eauto.
      reflexivity.
    + rewrite (nested_member (capabilities model) "limits" flag) by eauto.
      apply truthy_not_falsy in Hf. rewrite Hf. destruct (isTrue _); reflexivity.
Qed.

Lemma declaresVision_undeclared model :
  declaresVision model = false <-> ~ visionDeclared model.
Proof.
  rewrite <- declaresVision_declared. destruct (declaresVision model); split; congruence.
Qed.

(** C4.  The capability lookup reads the cache and nothing else (the
    world, request log included, is left as it was, and the lookup
    does not raise).  Its answer is unknown exactly when the credential
    has no entry or no cached descriptor carries the id.  After a call
    of [getAvailableModels] that returned a listing, the answer is true
    exactly when the descriptor of that id in the listing returned
    declares vision support ([supports.vision] is [true], or
    [limits.vision] is not falsy), and false exactly when there is such
    a descriptor and it declares none. *)
Theorem modelSupportsVision_from_cache oauthToken modelId w :
  (exists answer, modelSupportsVision oauthToken modelId w = (inr answer, w))
  /\ (fst (modelSupportsVision oauthToken modelId w) = inr None
      <-> cache w !! hashToken oauthToken = None
          \/ exists c, cache w !! hashToken oauthToken = Some c
                       /\ forall m, In m (models c) -> id m <> modelId)
  /\ (forall now r w0 listing,
        getAvailableModels oauthToken now r w0 = (inr listing, w) ->
        fst (modelSupportsVision oauthToken modelId w)
        = inr (option_map declaresVision (descriptorOf modelId listing))
        /\ (fst (modelSupportsVision oauthToken modelId w) = inr (Some true)
            <-> exists m, descriptorOf modelId listing = Some m
                          /\ visionDeclared m)
        /\ (fst (modelSupportsVision oauthToken modelId w) = inr (Some false)
            <-> exists m, descriptorOf modelId listing = Some m
                          /\ ~ visionDeclared m)).
Proof.
  split; [apply modelSupportsVision_returns|].
  unfold modelSupportsVision, getModelFromCache, descriptorOf, ret.
  split.
  - destruct (cache w !! hashToken oauthToken) as [c|] eqn:Hc.
    + destruct (find _ (models c)) as [m|] eqn:Hf; simpl; split.
      * discriminate.
      * intros [H|(c' & [= <-] & H)]; [discriminate|].
        apply find_some in Hf as [Hin Hid].
        apply String.eqb_eq in Hid. destruct (H m Hin Hid).
      * intros _. right. exists c. split; [reflexivity|].
        intros m Hin Hid.
        apply (find_none _ _ Hf) in Hin. simpl in Hin.
        apply String.eqb_neq in Hin. contradiction.
      * reflexivity.
    + simpl. split; auto.
  - intros now r w0 listing Hcall.
    apply getAvailableModels_cached in Hcall as (c & Hc & Hm).
    rewrite Hc, Hm.
    destruct (find _ listing) as [m|]; simpl.
    + split; [reflexivity|]. split; split.
      * intros [= H]. exists m. split; [reflexivity|].
        apply declaresVision_declared. exact H.
      * intros (m' & [= <-] & H). apply declaresVision_declared in H.
        rewrite H. reflexivity.
      * intros [= H]. exists m. split; [reflexivity|].
        apply declaresVision_undeclared. exact H.
      * intros (m' & [= <-] & H). apply declaresVision_undeclared in H.
        rewrite H. reflexivity.
    + split; [reflexivity|]. split; split; try discriminate.
      * intros (m' & H & _). discriminate.
      * intros (m' & H & _). discriminate.
Qed.

Lemma modelSupportsVision_from_cache_witness :
  fst (modelSupportsVision Sample.token "gpt-4o"
         (snd (getAvailableModels Sample.token 0 (Listing Sample.listing) Sample.emptyWorld)))
  = inr (Some true).
Proof.
  destruct (proj2 (proj2 (modelSupportsVision_from_cache Sample.token "gpt-4o"
           (snd (getAvailableModels Sample.token 0 (Listing Sample.listing) Sample.emptyWorld))))
           0 (Listing Sample.listing) Sample.emptyWorld Sample.listing eq_refl) as [H _].
  exact H.
Defined.

(** C6.  A first call that has no entry to start from fetches the
    listing and caches it for [CACHE_DURATION_MS] (one hour).  A second
    call before that time returns the same listing and leaves the
    world as it is: the request log still holds the one request of the
    first call. *)
Theorem second_call_within_ttl_hits_cache oauthToken t0 t1 data r1 w :
  cache w !! hashToken oauthToken = None ->
  t1 < t0 + CACHE_DURATION_MS ->
  exists w0,
    getAvailableModels oauthToken t0 (Listing data) w = (inr data, w0)
    /\ getAvailableModels oauthToken t1 r1 w0 = (inr data, w0)
    /\ fetches w0 = (fetches w ++ [oauthToken])%list.
Proof.
  intros Hnone Hlt. eexists. split; [|split].
  - unfold getAvailableModels. rewrite Hnone. simpl. reflexivity.
  - apply (getAvailableModels_fresh _ _ _ _
             (mkCache data t0 (t0 + CACHE_DURATION_MS) (hashToken oauthToken))).
    + simpl. apply lookup_insert_eq.
    + simpl. exact Hlt.
  - reflexivity.
Qed.

Lemma second_call_within_ttl_hits_cache_witness :
  exists w0,
    getAvailableModels Sample.token 1000 (Listing Sample.listing) Sample.emptyWorld
    = (inr Sample.listing, w0)
    /\ getAvailableModels Sample.token 3600999 (Unreachable "offline") w0
       = (inr Sample.listing, w0)
    /\ fetches w0 = (fetches Sample.emptyWorld ++ [Sample.token])%list.
Proof.
  apply (second_call_within_ttl_hits_cache Sample.token 1000 3600999 Sample.listing
           (Unreachable "offline") Sample.emptyWorld).
  - reflexivity.
  - unfold CACHE_DURATION_MS. lia.
Defined.

(** The same holds whatever made the first call succeed: the listing
    it returned is served again, without a request, as long as the
    entry has not expired. *)
Lemma repeated_call_hits_cache oauthToken t0 r0 w listing w0 :
  getAvailableModels oauthToken t0 r0 w = (inr listing, w0) ->
  exists c, cache w0 !! hashToken oauthToken = Some c
    /\ forall t1 r1, t1 < expiresAt c ->
         getAvailableModels oauthToken t1 r1 w0 = (inr listing, w0).
Proof.
  intros Hcall. apply getAvailableModels_cached in Hcall as (c & Hc & <-).
  exists c. split; [assumption|]. intros t1 r1 Hlt.
  now apply getAvailableModels_fresh.
Qed.

(** *** Degenerate credentials *)

Lemma ToInt32_range z : - 2 ^ 31 <= ToInt32 z < 2 ^ 31.
Proof.
  unfold ToInt32.
  pose proof (Z.mod_pos_bound (z + 2 ^ 31) (2 ^ 32) ltac:(lia)). lia.
Qed.

Lemma hashStep_range h ch : - 2 ^ 31 <= hashStep h ch < 2 ^ 31.
Proof. unfold hashStep. rewrite Z.land_diag. apply ToInt32_range. Qed.

Lemma hashLoop_range token h :
  - 2 ^ 31 <= h < 2 ^ 31 -> - 2 ^ 31 <= hashLoop h token < 2 ^ 31.
Proof.
  revert h. induction token as [|ch rest IH]; intros h Hh; simpl; [exact Hh|].
  apply IH, hashStep_range.
Qed.

Lemma toString36_aux_length (k fuel : nat) :
  forall n acc, (1 <= k)%nat -> 0 <= n < 36 ^ Z.of_nat k ->
    (String.length (toString36_aux fuel n acc) <= k + String.length acc)%nat.
Proof.
  revert k. induction fuel as [|fuel IH]; intros k n acc Hk Hn; simpl; [lia|].
  destruct (Z.eqb_spec (n / 36) 0) as [Hz|Hz]; simpl; [lia|].
  destruct k as [|[|k]]; [lia| |].
  - exfalso. apply Hz. apply Z.div_small. simpl in Hn. lia.
  - specialize (IH (S k) (n / 36) (String (digit36 (n mod 36)) acc)).
    simpl String.length in IH.
    assert (0 <= n / 36 < 36 ^ Z.of_nat (S k)).
    { split; [apply Z.div_pos; lia|].
      apply Z.div_lt_upper_bound; [lia|].
      replace (Z.of_nat (S (S k))) with (Z.succ (Z.of_nat (S k))) in Hn by lia.
      rewrite Z.pow_succ_r in Hn by lia. lia. }
    specialize (IH ltac:(lia) H). lia.
Qed.

(** Only a degenerate credential is filed under the sentinel key: the
    key of a proper token ends in at most six base-36 digits. *)
Lemma hashToken_sentinel_iff oauthToken :
  hashToken oauthToken = SENTINEL <-> degenerate oauthToken = true.
Proof.
  destruct oauthToken as [| | | |[|ch rest]| |]; simpl; split; try reflexivity; try discriminate.
  intros H. exfalso.
  unfold SENTINEL in H. injection H as H.
  pose proof (hashLoop_range rest (hashStep 0 ch) (hashStep_range 0 ch)) as Hr.
  set (n := Z.abs (hashLoop (hashStep 0 ch) rest)) in *.
  assert (Hn : 0 <= n < 36 ^ Z.of_nat 6) by (subst n; simpl; lia).
  pose proof (toString36_aux_length 6 (S (Z.to_nat (Z.log2 n))) n EmptyString
                ltac:(lia) Hn) as Hlen.
  change (toString36 n = "default") in H.
  unfold toString36 in H. rewrite H in Hlen. simpl in Hlen. lia.
Qed.

(** C8, as the code has it.  The hash is total and files every
    degenerate credential under the one sentinel key.  A capability
    lookup with such a credential does not raise, and answers unknown
    as long as nothing is cached under the sentinel key.
    [getAvailableModels] does not examine the credential: the request
    goes out to the provider as for any other credential; when the
    provider fails the call raises and the cache is left untouched. *)
Theorem degenerate_credential_uses_sentinel oauthToken :
  degenerate oauthToken = true ->
  hashToken oauthToken = SENTINEL
  /\ (forall modelId w,
        exists answer, modelSupportsVision oauthToken modelId w = (inr answer, w))
  /\ (forall modelId w,
        cache w !! SENTINEL = None ->
        modelSupportsVision oauthToken modelId w = (inr None, w))
  /\ (forall now r w,
        cache w !! SENTINEL = None ->
        fetches (snd (getAvailableModels oauthToken now r w))
        = (fetches w ++ [oauthToken])%list
        /\ (failed r = true ->
            exists e, getAvailableModels oauthToken now r w
                      = (inl e, mkWorld (cache w) (fetches w ++ [oauthToken])))).
Proof.
  intros Hd. apply hashToken_sentinel_iff in Hd as Hs.
  split; [exact Hs|]. split; [|split].
  - intros modelId w. apply modelSupportsVision_returns.
  - intros modelId w Hnone.
    unfold modelSupportsVision, getModelFromCache. rewrite Hs, Hnone. reflexivity.
  - intros now r w Hnone. unfold getAvailableModels. rewrite Hs, Hnone.
    destruct r; simpl; split; try reflexivity; intros Hf; try discriminate; eauto.
Qed.

Lemma degenerate_credential_uses_sentinel_witness :
  hashToken JUndefined = SENTINEL.
Proof.
  apply (degenerate_credential_uses_sentinel JUndefined). reflexivity.
Defined.

(** C8, counterexample.  With the credential [undefined] and an
    empty cache the call is not cut short: the request is sent.  If the
    provider answers, the listing is returned and filed under the
    sentinel key, after which the lookup with that credential answers
    from it; if the provider is down, the call raises only after the
    request has gone out. *)
Lemma degenerate_credential_reaches_provider :
  let '(r1, w1) := getAvailableModels JUndefined 0 (Listing Sample.listing) Sample.emptyWorld in
  let '(r2, w2) := getAvailableModels (JStr EmptyString) 0 (Unreachable "offline") Sample.emptyWorld in
  r1 = inr Sample.listing
  /\ fetches w1 = [JUndefined]
  /\ fst (modelSupportsVision JUndefined "gpt-4o" w1) = inr (Some true)
  /\ r2 = inl (External "offline")
  /\ fetches w2 = [JStr EmptyString].
Proof. vm_compute. auto 6. Qed.

End CacheProperties.

(* ================================================================== *)
(** * Properties of the node *)
(* ================================================================== *)

Section StringFacts.

Lemma startsWith_app p s : JsString.startsWith p (p ++ s) = true.
Proof.
  induction p as [|a p IH]; simpl; [reflexivity|].
  rewrite Ascii.eqb_refl. exact IH.
Qed.

Lemma includes_of_startsWith p s :
  JsString.startsWith p s = true -> JsString.includes p s = true.
Proof. intros H. destruct s; simpl; rewrite H; reflexivity. Qed.

(** A string includes each of its pieces. *)
Lemma includes_app p a b : JsString.includes p (a ++ p ++ b) = true.
Proof.
  induction a as [|ch a IH].
  - apply includes_of_startsWith. exact (startsWith_app p b).
  - change (JsString.includes p (String ch (a ++ p ++ b)) = true).
    cbn [JsString.includes]. rewrite IH. apply orb_true_r.
Qed.

Lemma length_append (a b : string) :
  String.length (a ++ b) = (String.length a + String.length b)%nat.
Proof. induction a as [|ch a IH]; simpl; [reflexivity | now rewrite IH]. Qed.

End StringFacts.

Section VisionDetection.
Import Js Exc GitHubCopilotOpenAI Notions.

Lemma messageHasVision_carries msg :
  isNullish msg = false -> messageHasVision msg = inr (carriesVision msg).
Proof.
  intros H. unfold messageHasVision, carriesVision, getOpt.
  destruct msg; try discriminate; simpl;
    repeat match goal with
           | |- context [if ?b then _ else _] => destruct b
           | |- context [match ?v with JUndefined => _ | _ => _ end] => destruct v
           end; simpl; reflexivity.
Qed.

Lemma scanMessages_existsb msgs :
  Forall (fun msg => isNullish msg = false) msgs ->
  scanMessages msgs = inr (existsb carriesVision msgs).
Proof.
  induction 1 as [|msg msgs Hm _ IH]; simpl; [reflexivity|].
  rewrite (messageHasVision_carries msg Hm). simpl.
  destruct (carriesVision msg); [reflexivity | exact IH].
Qed.

(** The part of C1 that the code does deliver: among messages that
    are objects, one structured image part, one message-level type
    [file] or [image], or one string payload holding an image data URL
    (of whatever length) makes the scan answer true. *)
Lemma hasVisionContent_detects msgs msg :
  Forall (fun m => isNullish m = false) msgs ->
  In msg msgs ->
  (exists parts part, getOpt msg "content" = JArr parts /\ In part parts
                      /\ partIsImage part = true)
  \/ isStr (getOpt msg "type") "file" = true
  \/ isStr (getOpt msg "type") "image" = true
  \/ (exists s n, getOpt msg "content" = JStr s /\ holdsImageDataUrl n s) ->
  hasVisionContent (JArr msgs) = inr true.
Proof.
  intros Hall Hin Hcase. simpl. rewrite (scanMessages_existsb msgs Hall).
  f_equal. apply existsb_exists. exists msg. split; [exact Hin|].
  unfold carriesVision.
  destruct Hcase as [(parts & part & -> & Hp & Hi)|[->|[->|(s & n & -> & Hs)]]].
  - apply orb_true_iff. right. apply existsb_exists. eauto.
  - reflexivity.
  - apply orb_true_iff. left. apply orb_true_r.
  - apply orb_true_iff. right.
    destruct Hs as (before & subtype & data & after & -> & _).
    unfold stringHasImage.
    change (before ++ "data:image/" ++ subtype ++ ";base64," ++ data ++ after)
      with (before ++ "data:image/" ++ (subtype ++ ";base64," ++ data ++ after)).
    rewrite includes_app. reflexivity.
Qed.

(** The two examples of the specification. *)
Example requiresVision_data_url :
  hasVisionContent (JArr [Sample.userMessage Sample.picture]) = inr true.
Proof. reflexivity. Qed.

Example requiresVision_plain_text :
  hasVisionContent (JArr [Sample.userMessage "this json has the word image in it"])
  = inr false.
Proof. reflexivity. Qed.

(** C1, at the failing input.  A payload with four characters of
    encoded data, far below the threshold of 50, is detected as vision
    content; so is a text that only mentions an image between square
    brackets. *)
Theorem short_payload_triggers_detection :
  hasVisionContent (JArr [Sample.userMessage Sample.shortPicture]) = inr true
  /\ hasVisionContent (JArr [Sample.userMessage "the field [image] is empty"]) = inr true
  /\ ~ holdsImageDataUrl 50 Sample.shortPicture.
Proof.
  split; [reflexivity|]. split; [reflexivity|].
  intros (before & subtype & data & after & Heq & Hlen).
  apply (f_equal String.length) in Heq.
  rewrite !length_append in Heq. simpl in Heq. lia.
Qed.

End VisionDetection.

Section RequestProperties.
Import Js Exc GitHubCopilotOpenAI Notions.

Variable JSON_parse : JValue -> string + JValue.
Variable JSON_stringify : JValue -> string.
Variable getModelByValue : string -> JValue.

Local Abbreviation prepareMessages := (prepareMessages JSON_parse JSON_stringify).
Local Abbreviation prepareRequest :=
  (prepareRequest JSON_parse JSON_stringify getModelByValue).
Local Abbreviation supportsVision := (supportsVision getModelByValue).
Local Abbreviation visionFallback := (visionFallback getModelByValue).

Implicit Types (p : NodeParameters) (w : DynamicModelsManager.World)
               (credentials : M JValue) (msgs : JValue).

Lemma get_not_nullish v k : isNullish v = false -> exists x, get v k = Some x.
Proof. destruct v; simpl; intros H; try discriminate; eauto. Qed.

(** The request of an item, once the model and the messages are
    known. *)
Lemma prepareRequest_steps i p credentials w model msgs hasVision :
  requestedModel p = inr model ->
  prepareMessages i p = inr msgs ->
  isNullish (advancedOptions p) = false ->
  hasVisionContent msgs = inr hasVision ->
  prepareRequest i p credentials w
  = if hasVision
    then (let* copilotModel :=
            visionFallback i credentials w (advancedOptions p) (mapModel model) in
          ret (mkRequest copilotModel msgs true))
    else ret (mkRequest (mapModel model) msgs false).
Proof.
  intros Hm Hs Ha Hv. unfold GitHubCopilotOpenAI.prepareRequest.
  rewrite Hm, Hs. simpl.
  destruct (get_not_nullish _ "tools" Ha) as [x ->].
  rewrite Hv. simpl. destruct hasVision; reflexivity.
Qed.

(** The fallback branch, once the credential is known and the model
    is known not to support vision. *)
Lemma visionFallback_unsupported i credentials w ao copilotModel creds oauthToken :
  credentials = inr creds ->
  get creds "oauthToken" = Some oauthToken ->
  supportsVision oauthToken w copilotModel = inr false ->
  visionFallback i credentials w ao copilotModel
  = if truthy (getOpt ao "enableVisionFallback")
    then requireText (configuredFallback ao) (NodeOperationError noFallbackMessage i None)
    else throw (NodeOperationError (visionUnsupportedMessage copilotModel) i None).
Proof.
  intros -> Ho Hs. unfold GitHubCopilotOpenAI.visionFallback. simpl.
  rewrite Ho, Hs. reflexivity.
Qed.

Lemma mapM_length {A B} (f : A -> M B) l l' :
  mapM f l = inr l' -> length l' = length l.
Proof.
  revert l'. induction l as [|a l IH]; simpl; intros l' H.
  - injection H as <-. reflexivity.
  - destruct (f a); [discriminate|]. simpl in H.
    destruct (mapM f l) as [|bs]; [discriminate|]. simpl in H.
    injection H as <-. simpl. now rewrite (IH bs).
Qed.

Lemma withDefaultMessage_not_empty ms ms' :
  withDefaultMessage ms = inr ms' -> ms' <> JArr [].
Proof.
  destruct ms as [| | | |[|]|[|]|]; simpl; intros H; try discriminate;
    try (injection H as <-; discriminate).
  destruct (assoc "length" props) as [| | |[| |]| | |];
    try discriminate; injection H as <-; discriminate.
Qed.

Lemma prepareMessages_not_empty i p msgs :
  prepareMessages i p = inr msgs -> msgs <> JArr [].
Proof.
  unfold GitHubCopilotOpenAI.prepareMessages.
  destruct (parseMessages JSON_parse p) as [|ms]; [discriminate|]. simpl.
  destruct (withDefaultMessage ms) as [|ms'] eqn:Hd; [discriminate|]. simpl.
  apply withDefaultMessage_not_empty in Hd.
  destruct ms'; try (intros [= <-]; discriminate).
  destruct (forEachM _ items); [discriminate|]. simpl.
  destruct (mapM _ items) as [|items'] eqn:Hn; [discriminate|]. simpl.
  intros [= <-]. apply mapM_length in Hn.
  destruct items; [contradiction|]. destruct items'; [discriminate|]. discriminate.
Qed.

(** The ways in which no message is supplied: in manual mode an empty
    (or absent) collection, in JSON mode an empty array, given
    directly or as the body member [messages]. *)
Lemma parseMessages_none_supplied p :
  (messagesInputMode p <> "json"
   /\ (exists v, get (messages p) "message" = Some v /\ (v = JArr [] \/ isArray v = false)))
  \/ (messagesInputMode p = "json"
      /\ (messagesJson p = JArr []
          \/ exists props, messagesJson p = JObj props /\ assoc "messages" props = JArr [])) ->
  parseMessages JSON_parse p = inr (JArr []).
Proof.
  unfold parseMessages, parseManualMessages, parseJsonMessages.
  intros [[Hmode (v & -> & Hv)]|[-> Hj]].
  - apply String.eqb_neq in Hmode. rewrite Hmode.
    destruct Hv as [->|Hv]; [reflexivity|].
    destruct v; try reflexivity; discriminate.
  - simpl. destruct Hj as [->|(props & -> & Hm)]; [reflexivity|].
    simpl. rewrite Hm. reflexivity.
Qed.

(** A request carries the message list as prepared. *)
Lemma prepareRequest_messages i p credentials w request :
  prepareRequest i p credentials w = inr request ->
  prepareMessages i p = inr (body_messages request).
Proof.
  unfold GitHubCopilotOpenAI.prepareRequest.
  destruct (requestedModel p); [discriminate|]. simpl.
  destruct (prepareMessages i p) as [|ms]; [discriminate|]. simpl.
  destruct (get (advancedOptions p) "tools"); [|discriminate].
  destruct (hasVisionContent ms) as [|[|]]; [discriminate| |]; simpl.
  - destruct (visionFallback _ _ _ _ _); [discriminate|]. simpl.
    intros [= <-]. reflexivity.
  - intros [= <-]. reflexivity.
Qed.

(** C10.  When the parsed message list is empty, the default user
    message takes its place before validation and normalisation, and
    the request carries exactly that message; and no request ever
    carries an empty message array. *)
Theorem default_message_substituted i p credentials w :
  (parseMessages JSON_parse p = inr (JArr []) ->
   prepareMessages i p
   = inr (JArr [JObj [("role", JStr "user");
                      ("content", JStr "Hello! How can you help me?")]])
   /\ forall model,
        requestedModel p = inr model ->
        isNullish (advancedOptions p) = false ->
        exists request,
          prepareRequest i p credentials w = inr request
          /\ body_messages request
             = JArr [JObj [("role", JStr "user");
                           ("content", JStr "Hello! How can you help me?")]]
          /\ vision request = false)
  /\ (forall msgs, prepareMessages i p = inr msgs -> msgs <> JArr [])
  /\ (forall request,
        prepareRequest i p credentials w = inr request ->
        body_messages request <> JArr []).
Proof.
  split; [|split].
  - intros Hp.
    assert (Hs : prepareMessages i p = inr (JArr [defaultMessage])).
    { unfold GitHubCopilotOpenAI.prepareMessages. rewrite Hp. reflexivity. }
    split; [exact Hs|]. intros model Hm Ha.
    rewrite (prepareRequest_steps i p credentials w model _ false Hm Hs Ha);
      [|reflexivity].
    eexists. split; [reflexivity|]. split; reflexivity.
  - intros msgs. apply prepareMessages_not_empty.
  - intros request Hr. apply prepareRequest_messages in Hr.
    apply (prepareMessages_not_empty i p _ Hr).
Qed.

End RequestProperties.

Lemma default_message_substituted_witness :
  exists request,
    GitHubCopilotOpenAI.prepareRequest Sample.JSON_parse Sample.JSON_stringify
      Sample.getModelByValue 0 (Sample.jsonParams "gpt-4o-mini" [] (Js.JObj []))
      Sample.credentials Sample.emptyWorld
    = inr request
    /\ GitHubCopilotOpenAI.body_messages request
       = Js.JArr [Js.JObj [("role", Js.JStr "user");
                           ("content", Js.JStr "Hello! How can you help me?")]]
    /\ GitHubCopilotOpenAI.vision request = false.
Proof.
  exact (proj2 (proj1 (default_message_substituted Sample.JSON_parse Sample.JSON_stringify
                  Sample.getModelByValue 0 (Sample.jsonParams "gpt-4o-mini" [] (Js.JObj []))
                  Sample.credentials Sample.emptyWorld) eq_refl)
               "gpt-4o-mini" eq_refl eq_refl).
Defined.

Section FallbackProperties.
Import Js Exc GitHubCopilotOpenAI Notions.

Variable JSON_parse : JValue -> string + JValue.
Variable JSON_stringify : JValue -> string.
Variable getModelByValue : string -> JValue.

Local Abbreviation prepareMessages := (prepareMessages JSON_parse JSON_stringify).
Local Abbreviation prepareRequest :=
  (prepareRequest JSON_parse JSON_stringify getModelByValue).
Local Abbreviation supportsVision := (supportsVision getModelByValue).

Implicit Types (p : NodeParameters) (w : DynamicModelsManager.World)
               (credentials : M JValue) (msgs : JValue).

(** Ids outside the alias list are sent as they are. *)
Lemma mapModel_not_alias model : ~ In model aliases -> mapModel model = model.
Proof.
  intros Hn. unfold mapModel, modelMapping, lookupMapping.
  repeat match goal with
         | |- context [String.eqb model ?k] =>
             destruct (String.eqb_spec model k) as [->|_]
         end; try reflexivity.
  all: exfalso; apply Hn; simpl; auto 6.
Qed.

Lemma visionUnsupportedMessage_names copilotModel :
  JsString.includes copilotModel (visionUnsupportedMessage copilotModel) = true.
Proof. unfold visionUnsupportedMessage. apply includes_app. Qed.

Lemma requireText_string s e :
  JsString.isEmpty (JsString.trim s) = false -> requireText (JStr s) e = inr s.
Proof.
  intros H. unfold requireText. rewrite H.
  destruct s; [discriminate | reflexivity].
Qed.

Lemma requireText_blank v e :
  truthy v = false \/ (exists s, v = JStr s /\ JsString.isEmpty (JsString.trim s) = true) ->
  requireText v e = inl e.
Proof.
  intros [H|(s & -> & H)]; unfold requireText.
  - destruct v as [| |b|n|s|items|props]; simpl in *;
      try discriminate; try reflexivity; try (rewrite H; reflexivity).
    destruct s; [reflexivity | discriminate].
  - rewrite H. rewrite orb_true_r. reflexivity.
Qed.

(** The alias table rewrites the four aliases and nothing else. *)
Lemma mapModel_sentAs model : mapModel model = sentAs model.
Proof.
  unfold mapModel, sentAs, modelMapping, lookupMapping.
  repeat match goal with
         | |- context [String.eqb model ?k] =>
             destruct (String.eqb_spec model k) as [->|_]
         end; reflexivity.
Qed.

(** C7, as the code has it.  When the messages hold no vision content,
    or the model supports vision (cached listing first, static table
    otherwise), the request carries [modelMapping[model] || model]:
    [gpt-4o] for the aliases [gpt-4] and [gpt-4-turbo],
    [claude-3.5-sonnet] for the aliases [claude-3-5-sonnet] and
    [claude-3.5-sonnet-20241022], and the requested id itself for every
    other id. *)
Theorem model_kept_up_to_alias i p credentials w model msgs :
  requestedModel p = inr model ->
  inheritedKey model = false ->
  prepareMessages i p = inr msgs ->
  isNullish (advancedOptions p) = false ->
  (hasVisionContent msgs = inr false ->
   prepareRequest i p credentials w = inr (mkRequest (sentAs model) msgs false))
  /\ (forall creds oauthToken,
        hasVisionContent msgs = inr true ->
        credentials = inr creds ->
        get creds "oauthToken" = Some oauthToken ->
        supportsVision oauthToken w (sentAs model) = inr true ->
        prepareRequest i p credentials w = inr (mkRequest (sentAs model) msgs true))
  /\ mapModel model = sentAs model
  /\ (~ In model aliases -> mapModel model = model).
Proof.
  intros Hm _ Hs Ha. rewrite <- mapModel_sentAs. split; [|split; [|split]].
  - intros Hv.
    rewrite (prepareRequest_steps _ _ _ i p credentials w model msgs false); auto.
  - intros creds oauthToken Hv -> Ho Hsup.
    rewrite (prepareRequest_steps _ _ _ i p (inr creds) w model msgs true); auto.
    unfold visionFallback. simpl. rewrite Ho, Hsup. reflexivity.
  - reflexivity.
  - apply mapModel_not_alias.
Qed.

(** C5, as the code has it.  The messages hold vision content and the
    model (after alias mapping) does not support vision.  With the
    fallback enabled and a configured fallback id that is not blank, the
    request carries that id.  With the fallback enabled and the id
    missing, empty or blank, the item fails with the error that reports
    the missing fallback.  With the fallback disabled, the item fails
    with the error that names the mapped model. *)
Theorem vision_fallback_policy i p credentials w model msgs creds oauthToken :
  requestedModel p = inr model ->
  inheritedKey model = false ->
  prepareMessages i p = inr msgs ->
  isNullish (advancedOptions p) = false ->
  hasVisionContent msgs = inr true ->
  credentials = inr creds ->
  get creds "oauthToken" = Some oauthToken ->
  supportsVision oauthToken w (mapModel model) = inr false ->
  let enabled := truthy (getOpt (advancedOptions p) "enableVisionFallback") in
  let fallback := configuredFallback (advancedOptions p) in
  (forall s, enabled = true -> fallback = JStr s ->
             JsString.isEmpty (JsString.trim s) = false ->
             prepareRequest i p credentials w = inr (mkRequest s msgs true))
  /\ (enabled = true ->
      truthy fallback = false
      \/ (exists s, fallback = JStr s /\ JsString.isEmpty (JsString.trim s) = true) ->
      prepareRequest i p credentials w = inl (NodeOperationError noFallbackMessage i None))
  /\ (enabled = false ->
      prepareRequest i p credentials w
      = inl (NodeOperationError (visionUnsupportedMessage (mapModel model)) i None)
      /\ JsString.includes (mapModel model) (visionUnsupportedMessage (mapModel model))
         = true).
Proof.
  intros Hm _ Hs Ha Hv Hc Ho Hsup enabled fallback.
  pose proof (prepareRequest_steps JSON_parse JSON_stringify getModelByValue
                i p credentials w model msgs true Hm Hs Ha Hv) as Hstep.
  rewrite (visionFallback_unsupported getModelByValue i credentials w (advancedOptions p)
             (mapModel model) creds oauthToken Hc Ho Hsup) in Hstep.
  fold enabled fallback in Hstep. rewrite Hstep. clear Hstep.
  split; [|split].
  - intros s -> -> Ht. rewrite requireText_string by exact Ht. reflexivity.
  - intros -> Hb. rewrite requireText_blank by exact Hb. reflexivity.
  - intros ->. split; [reflexivity | apply visionUnsupportedMessage_names].
Qed.

End FallbackProperties.

Section FallbackExamples.
Import Js Exc GitHubCopilotOpenAI.

Local Abbreviation run :=
  (prepareRequest Sample.JSON_parse Sample.JSON_stringify Sample.getModelByValue 0).

Lemma model_kept_up_to_alias_witness :
  run (Sample.jsonParams "claude-3-5-sonnet" [Sample.userMessage "hi"] (JObj []))
      Sample.credentials Sample.cachedWorld
  = inr (mkRequest "claude-3.5-sonnet" (JArr [Sample.userMessage "hi"]) false).
Proof.
  exact (proj1 (model_kept_up_to_alias Sample.JSON_parse Sample.JSON_stringify
                  Sample.getModelByValue 0
                  (Sample.jsonParams "claude-3-5-sonnet" [Sample.userMessage "hi"]
                     (JObj []))
                  Sample.credentials Sample.cachedWorld
                  "claude-3-5-sonnet" (JArr [Sample.userMessage "hi"])
                  eq_refl eq_refl eq_refl eq_refl)
               eq_refl).
Defined.

(** C7, counterexample: the caller asks for [gpt-4], the
    messages hold no vision content, and the request carries [gpt-4o]. *)
Lemma alias_is_rewritten :
  exists request,
    run (Sample.jsonParams "gpt-4" [Sample.userMessage "hi"] (JObj []))
        Sample.credentials Sample.emptyWorld
    = inr request
    /\ vision request = false
    /\ body_model request = "gpt-4o"
    /\ body_model request <> "gpt-4".
Proof. eexists. split; [vm_compute; reflexivity|]. simpl. repeat split. discriminate. Qed.

Lemma vision_fallback_policy_witness :
  run (Sample.jsonParams "gpt-4o-mini" [Sample.userMessage Sample.picture]
         (Sample.fallbackOptions true "gpt-4o"))
      Sample.credentials Sample.cachedWorld
  = inr (mkRequest "gpt-4o" (JArr [Sample.userMessage Sample.picture]) true).
Proof.
  exact (proj1 (vision_fallback_policy Sample.JSON_parse Sample.JSON_stringify
                  Sample.getModelByValue 0
                  (Sample.jsonParams "gpt-4o-mini" [Sample.userMessage Sample.picture]
                     (Sample.fallbackOptions true "gpt-4o"))
                  Sample.credentials Sample.cachedWorld
                  "gpt-4o-mini" (JArr [Sample.userMessage Sample.picture])
                  (JObj [("oauthToken", Sample.token)]) Sample.token
                  eq_refl eq_refl eq_refl eq_refl eq_refl eq_refl eq_refl eq_refl)
               "gpt-4o" eq_refl eq_refl eq_refl).
Defined.

(** The two examples of the specification: without fallback the item
    fails and the error names [gpt-4o-mini]; with the fallback [gpt-4o]
    the request carries [gpt-4o]. *)
Example resolveModel_fallback_disabled :
  exists message,
    run (Sample.jsonParams "gpt-4o-mini" [Sample.userMessage Sample.picture]
           (Sample.fallbackOptions false ""))
        Sample.credentials Sample.cachedWorld
    = inl (NodeOperationError message 0 None)
    /\ JsString.includes "gpt-4o-mini" message = true.
Proof. eexists. split; vm_compute; reflexivity. Qed.

Example resolveModel_fallback_enabled :
  exists request,
    run (Sample.jsonParams "gpt-4o-mini" [Sample.userMessage Sample.picture]
           (Sample.fallbackOptions true "gpt-4o"))
        Sample.credentials Sample.cachedWorld
    = inr request
    /\ body_model request = "gpt-4o".
Proof. eexists. split; vm_compute; reflexivity. Qed.

(** C5, counterexample.  With the fallback enabled and no
    fallback id, the error that ends the item does not name the model.
    A fallback id made of blanks is not empty, and is refused all the
    same.  With the fallback disabled and the alias [gpt-4-turbo]
    requested while the cached listing gives [gpt-4o] no vision support,
    the error names [gpt-4o], not the requested id. *)
Lemma missing_fallback_error_names_no_model :
  (exists message,
     run (Sample.jsonParams "gpt-4o-mini" [Sample.userMessage Sample.picture]
            (Sample.fallbackOptions true ""))
         Sample.credentials Sample.cachedWorld
     = inl (NodeOperationError message 0 None)
     /\ JsString.includes "gpt-4o-mini" message = false)
  /\ (exists message,
        run (Sample.jsonParams "gpt-4o-mini" [Sample.userMessage Sample.picture]
               (Sample.fallbackOptions true "  "))
            Sample.credentials Sample.cachedWorld
        = inl (NodeOperationError message 0 None)
        /\ JsString.includes "gpt-4o-mini" message = false)
  /\ (exists message,
        run (Sample.jsonParams "gpt-4-turbo" [Sample.userMessage Sample.picture]
               (Sample.fallbackOptions false ""))
            Sample.credentials
            (DynamicModelsManager.mkWorld
               {[ DynamicModelsManager.hashToken Sample.token :=
                    DynamicModelsManager.mkCache
                      [DynamicModelsManager.mkModel "gpt-4o" "GPT-4o" (JObj [])]
                      0 DynamicModelsManager.CACHE_DURATION_MS
                      (DynamicModelsManager.hashToken Sample.token) ]} [])
        = inl (NodeOperationError message 0 None)
        /\ JsString.includes "gpt-4-turbo" message = false).
Proof. repeat split; eexists; split; vm_compute; reflexivity. Qed.

End FallbackExamples.

Section ErrorReporting.
Import Js Exc GitHubCopilotOpenAI Notions.

Variable JSON_parse : JValue -> string + JValue.

Local Abbreviation handleError := (handleError JSON_parse).
Local Abbreviation extractApiError := (extractApiError JSON_parse).
Local Abbreviation executeFrom := (executeFrom JSON_parse).
Local Abbreviation execute := (execute JSON_parse).
Local Abbreviation badRequest := (badRequest JSON_parse).

(** The third way of recognising a bad request only needs the code:
    where [apiError.error.code] is that string, [apiError] and
    [apiError.error] are objects. *)
Lemma is400Error_iff lowerMessage apiError :
  is400Error lowerMessage apiError = true
  <-> JsString.includes "400" lowerMessage = true
      \/ JsString.includes "bad request" lowerMessage = true
      \/ isStr (getOpt (getOpt apiError "error") "code") "invalid_request_body" = true.
Proof.
  unfold is400Error. rewrite !orb_true_iff, !andb_true_iff. split.
  - intros [[H|H]|[_ H]]; auto.
  - intros [H|[H|H]]; auto. right.
    destruct apiError as [| | | | | |props]; try discriminate.
    destruct (getOpt (JObj props) "error") as [| | | | | |props']; try discriminate.
    auto.
Qed.

Lemma errorItem_shape i d :
  exists message type param code, errorItem i d = openAIError i message type param code.
Proof. destruct d as [[[m t] pa] c]. simpl. unfold openAIError, pairedItem. eauto 6. Qed.

Lemma executeFrom_no_bad_request outcomes :
  forall i returnData,
    (forall error, In (Failed error) outcomes -> badRequest error = false) ->
    executeFrom true i outcomes returnData
    = Returns [(returnData ++ pushedFrom JSON_parse i outcomes)%list].
Proof.
  induction outcomes as [|o rest IH]; intros i returnData Hok; simpl.
  - rewrite app_nil_r. reflexivity.
  - destruct o as [r|error].
    + rewrite IH by (intros e He; apply Hok; right; exact He).
      rewrite <- app_assoc. reflexivity.
    + unfold GitHubCopilotOpenAI.handleError.
      pose proof (Hok error (or_introl eq_refl)) as Hb.
      unfold Notions.badRequest in Hb. rewrite Hb.
      rewrite IH by (intros e He; apply Hok; right; exact He).
      rewrite <- app_assoc. reflexivity.
Qed.

Lemma executeFrom_first_bad_request before error after :
  forall i returnData,
    (forall e, In (Failed e) before -> badRequest e = false) ->
    badRequest error = true ->
    executeFrom true i (before ++ Failed error :: after) returnData
    = Throws (badRequestError (i + length before)
                (cleanErrorMessage (errorMessageOf error))).
Proof.
  induction before as [|o rest IH]; intros i returnData Hok Hbad; simpl.
  - unfold GitHubCopilotOpenAI.handleError. unfold Notions.badRequest in Hbad.
    rewrite Hbad. rewrite Nat.add_0_r. reflexivity.
  - replace (i + S (length rest))%nat with (S i + length rest)%nat by lia.
    destruct o as [r|e].
    + apply IH; [|exact Hbad]. intros e He. apply Hok. right. exact He.
    + unfold GitHubCopilotOpenAI.handleError.
      pose proof (Hok e (or_introl eq_refl)) as Hb.
      unfold Notions.badRequest in Hb. rewrite Hb.
      apply IH; [|exact Hbad]. intros e' He. apply Hok. right. exact He.
Qed.

(** C9.  With continue-on-fail, the [catch] block of item [i] ends in
    one of two ways.  If the error is recognised as a bad request (the
    cleaned message, in lower case, contains 400 or bad request, or the
    code of the extracted API error is invalid_request_body), a
    [NodeOperationError] is thrown and nothing is pushed.  Otherwise an
    item of the shape [{ error: { message, type, param, code } }] is
    pushed.  For the whole loop: the first item that fails with a bad
    request makes [execute] throw; and when no item fails with a bad
    request, [execute] returns one entry per item. *)
Theorem bad_request_is_rethrown i error :
  let cleanMessage := cleanErrorMessage (errorMessageOf error) in
  let lowerMessage := JsString.toLowerCase cleanMessage in
  let apiError := extractApiError error in
  (JsString.includes "400" lowerMessage = true
   \/ JsString.includes "bad request" lowerMessage = true
   \/ isStr (getOpt (getOpt apiError "error") "code") "invalid_request_body" = true ->
   handleError true i error
   = ThrowsNew
       (NodeOperationError ("Bad Request (400): " ++ cleanMessage) i
          (Some "The request was malformed or contains invalid parameters. Retrying will not help.")))
  /\ (JsString.includes "400" lowerMessage = false ->
      JsString.includes "bad request" lowerMessage = false ->
      isStr (getOpt (getOpt apiError "error") "code") "invalid_request_body" = false ->
      exists message type param code,
        handleError true i error = Pushed (openAIError i message type param code))
  /\ (forall before after,
        (forall e, In (Failed e) before -> badRequest e = false) ->
        badRequest error = true ->
        execute true (before ++ Failed error :: after)
        = Throws (badRequestError (length before) cleanMessage))
  /\ (forall outcomes,
        (forall e, In (Failed e) outcomes -> badRequest e = false) ->
        execute true outcomes = Returns [pushedFrom JSON_parse 0 outcomes]).
Proof.
  intros cleanMessage lowerMessage apiError. split; [|split; [|split]].
  - intros H. apply is400Error_iff in H.
    unfold GitHubCopilotOpenAI.handleError.
    fold cleanMessage. fold apiError. fold lowerMessage. rewrite H. reflexivity.
  - intros H1 H2 H3.
    assert (H : is400Error lowerMessage apiError = false).
    { destruct (is400Error lowerMessage apiError) eqn:E; [|reflexivity].
      apply is400Error_iff in E. destruct E as [E|[E|E]]; congruence. }
    unfold GitHubCopilotOpenAI.handleError.
    fold cleanMessage. fold apiError. fold lowerMessage. rewrite H.
    destruct (errorItem_shape i (errorDetails cleanMessage lowerMessage apiError))
      as (m & t & pa & c & ->). eauto 6.
  - intros before after Hok Hbad.
    apply (executeFrom_first_bad_request before error after 0%nat []); assumption.
  - intros outcomes Hok.
    apply (executeFrom_no_bad_request outcomes 0%nat []); assumption.
Qed.

End ErrorReporting.

Lemma bad_request_is_rethrown_witness :
  GitHubCopilotOpenAI.handleError Sample.JSON_parse true 2 Sample.rejectedError
  = GitHubCopilotOpenAI.ThrowsNew
      (Exc.NodeOperationError "Bad Request (400): 400 Bad Request" 2
         (Some "The request was malformed or contains invalid parameters. Retrying will not help.")).
Proof.
  apply (proj1 (bad_request_is_rethrown Sample.JSON_parse 2 Sample.rejectedError)).
  left. vm_compute. reflexivity.
Defined.

(** The three sample errors: one is reported in the output, two are
    thrown as bad requests. *)
Example timeout_is_reported :
  GitHubCopilotOpenAI.execute Sample.JSON_parse true
    [GitHubCopilotOpenAI.Succeeded (Js.JObj []); GitHubCopilotOpenAI.Failed Sample.timeoutError]
  = GitHubCopilotOpenAI.Returns
      [[ GitHubCopilotOpenAI.responseItem 0 (Js.JObj []);
         Notions.openAIError 1 (Js.JStr "Request timeout. Please try again.")
           (Js.JStr "api_error") Js.JNull (Js.JStr "timeout") ]].
Proof. vm_compute. reflexivity. Qed.

Example invalid_body_is_thrown :
  GitHubCopilotOpenAI.execute Sample.JSON_parse true
    [GitHubCopilotOpenAI.Failed Sample.timeoutError;
     GitHubCopilotOpenAI.Failed Sample.invalidBodyError]
  = GitHubCopilotOpenAI.Throws
      (GitHubCopilotOpenAI.badRequestError 1 "Request failed").
Proof. vm_compute. reflexivity. Qed.

(* ================================================================== *)
(** * Further properties of the model cache *)
(* ================================================================== *)

Section CacheKeys.
Import Js Exc DynamicModelsManager Notions.

Implicit Types (oauthToken : JValue) (now : Z) (r : Response) (w : World).

(** X1.  Every cache key begins with [models_] and has at most 14
    characters; the key [models_default] is the key of the degenerate
    credentials and of no proper token. *)
Theorem hashToken_key_shape oauthToken :
  JsString.startsWith "models_" (hashToken oauthToken) = true
  /\ (String.length (hashToken oauthToken) <= 14)%nat
  /\ (hashToken oauthToken = SENTINEL <-> degenerate oauthToken = true).
Proof.
  split; [|split].
  - destruct oauthToken as [| | | |[|ch rest]| |]; reflexivity.
  - destruct oauthToken as [| | | |[|ch rest]| |].
    1-5, 7-8: (simpl; lia).
    unfold hashToken. rewrite length_append.
    pose proof (hashLoop_range rest (hashStep 0 ch) (hashStep_range 0 ch)) as Hr.
    change (hashLoop 0 (String ch rest)) with (hashLoop (hashStep 0 ch) rest).
    set (n := Z.abs (hashLoop (hashStep 0 ch) rest)) in *.
    assert (Hn : 0 <= n < 36 ^ Z.of_nat 6) by (subst n; simpl; lia).
    pose proof (toString36_aux_length 6 (S (Z.to_nat (Z.log2 n))) n EmptyString
                  ltac:(lia) Hn) as Hlen.
    unfold toString36.
    change (String.length "models_") with 7%nat.
    change (String.length EmptyString) with 0%nat in Hlen. lia.
  - apply hashToken_sentinel_iff.
Qed.

(** X2.  Two credentials with the same hash share one cache entry: the
    capability lookup answers alike for both, and after one of them has
    fetched a listing the other is served that listing, without a
    request, until it expires. *)
Theorem colliding_tokens_share_entry oauthToken other w :
  hashToken oauthToken = hashToken other ->
  (forall modelId,
     modelSupportsVision oauthToken modelId w = modelSupportsVision other modelId w)
  /\ (forall t0 t1 data r,
        cache w !! hashToken oauthToken = None ->
        t1 < t0 + CACHE_DURATION_MS ->
        let w0 := snd (getAvailableModels oauthToken t0 (Listing data) w) in
        getAvailableModels other t1 r w0 = (inr data, w0)).
Proof.
  intros Hh. split.
  - intros modelId. unfold modelSupportsVision, getModelFromCache. rewrite Hh. reflexivity.
  - intros t0 t1 data r Hnone Hlt w0.
    assert (Hw0 : w0 = mkWorld
              (<[hashToken oauthToken :=
                   mkCache data t0 (t0 + CACHE_DURATION_MS) (hashToken oauthToken)]>
                 (cache w))
              (fetches w ++ [oauthToken])).
    { subst w0. unfold getAvailableModels. rewrite Hnone. reflexivity. }
    rewrite Hw0.
    apply (getAvailableModels_fresh other t1 r _
             (mkCache data t0 (t0 + CACHE_DURATION_MS) (hashToken oauthToken))).
    + simpl. rewrite <- Hh. apply lookup_insert_eq.
    + exact Hlt.
Qed.

Lemma colliding_tokens_share_entry_witness :
  getAvailableModels (JStr "BB") 1000 (Unreachable "offline")
    (snd (getAvailableModels (JStr "Aa") 0 (Listing Sample.listing) Sample.emptyWorld))
  = (inr Sample.listing,
     snd (getAvailableModels (JStr "Aa") 0 (Listing Sample.listing) Sample.emptyWorld)).
Proof.
  apply (proj2 (colliding_tokens_share_entry (JStr "Aa") (JStr "BB") Sample.emptyWorld
                  ltac:(vm_compute; reflexivity))
               0 1000 Sample.listing (Unreachable "offline")).
  - reflexivity.
  - unfold CACHE_DURATION_MS. lia.
Defined.

End CacheKeys.

Section CacheLifecycle.
Import Js Exc DynamicModelsManager Notions Histories.

Implicit Types (oauthToken : JValue) (now : Z) (r : Response) (w : World).

(** What a call adds to the request log: nothing when an unexpired
    entry (or the cooldown) answers, one request otherwise. *)
Lemma getAvailableModels_log oauthToken now r w :
  fetches (snd (getAvailableModels oauthToken now r w)) = fetches w
  \/ fetches (snd (getAvailableModels oauthToken now r w))
     = (fetches w ++ [oauthToken])%list.
Proof.
  unfold getAvailableModels.
  destruct (cache w !! hashToken oauthToken) as [c|].
  - destruct (expiresAt c >? now); [left; reflexivity|].
    destruct (now - fetchedAt c <? MIN_REFRESH_INTERVAL_MS); [left; reflexivity|].
    right. destruct r; reflexivity.
  - right. destruct r; reflexivity.
Qed.

Lemma getAvailableModels_no_entry oauthToken now r w :
  cache w !! hashToken oauthToken = None ->
  fetches (snd (getAvailableModels oauthToken now r w))
  = (fetches w ++ [oauthToken])%list.
Proof.
  intros H. unfold getAvailableModels. rewrite H. destruct r; reflexivity.
Qed.

(** X3.  After [clearCache] for a credential, its capability lookup
    answers unknown, its next [getAvailableModels] goes to the provider
    whatever the time, and the entries filed under other keys are
    untouched. *)
Theorem clearCache_forces_refetch oauthToken w :
  let w' := snd (clearCache oauthToken w) in
  (forall modelId, modelSupportsVision oauthToken modelId w' = (inr None, w'))
  /\ (forall now r,
        fetches (snd (getAvailableModels oauthToken now r w'))
        = (fetches w ++ [oauthToken])%list)
  /\ (forall key, key <> hashToken oauthToken -> cache w' !! key = cache w !! key).
Proof.
  intros w'. split; [|split].
  - intros modelId. apply clearCache_forgets.
  - intros now r. rewrite getAvailableModels_no_entry; [reflexivity|].
    subst w'. simpl. apply lookup_delete_eq.
  - intros key Hk. subst w'. simpl. apply lookup_delete_ne. congruence.
Qed.

Lemma clearCache_forces_refetch_witness :
  cache (snd (clearCache (JStr "another token") Sample.cachedWorld))
    !! hashToken Sample.token
  = cache Sample.cachedWorld !! hashToken Sample.token.
Proof.
  apply (proj2 (proj2 (clearCache_forces_refetch (JStr "another token") Sample.cachedWorld))).
  vm_compute. intros H. discriminate H.
Defined.

(** X4.  After [clearAllCache] every capability lookup answers unknown
    and every [getAvailableModels] goes to the provider; the request log
    is not touched by the clearing itself. *)
Theorem clearAllCache_forgets_everything oauthToken w :
  let w' := snd (clearAllCache w) in
  fetches w' = fetches w
  /\ (forall modelId, modelSupportsVision oauthToken modelId w' = (inr None, w'))
  /\ (forall now r,
        fetches (snd (getAvailableModels oauthToken now r w'))
        = (fetches w ++ [oauthToken])%list).
Proof.
  intros w'. split; [reflexivity|]. split.
  - intros modelId. unfold modelSupportsVision, getModelFromCache. subst w'. simpl.
    rewrite lookup_empty. reflexivity.
  - intros now r. rewrite getAvailableModels_no_entry; [reflexivity|].
    subst w'. simpl. apply lookup_empty.
Qed.

(** X5.  A call whose fetch fails leaves the cache exactly as it was
    (the stale entry is neither evicted nor re-stamped); a call whose
    fetch succeeds changes the entry of its own key only. *)
Theorem failed_fetch_keeps_cache oauthToken now r w :
  (failed r = true -> cache (snd (getAvailableModels oauthToken now r w)) = cache w)
  /\ (forall key, key <> hashToken oauthToken ->
        cache (snd (getAvailableModels oauthToken now r w)) !! key = cache w !! key).
Proof.
  unfold getAvailableModels. split.
  - intros Hf.
    destruct (cache w !! hashToken oauthToken) as [c|].
    + destruct (expiresAt c >? now); [reflexivity|].
      destruct (now - fetchedAt c <? MIN_REFRESH_INTERVAL_MS); [reflexivity|].
      destruct r; try discriminate; reflexivity.
    + destruct r; try discriminate; reflexivity.
  - intros key Hk.
    destruct (cache w !! hashToken oauthToken) as [c|].
    + destruct (expiresAt c >? now); [reflexivity|].
      destruct (now - fetchedAt c <? MIN_REFRESH_INTERVAL_MS); [reflexivity|].
      destruct r; simpl; try reflexivity.
      apply lookup_insert_ne. congruence.
    + destruct r; simpl; try reflexivity.
      apply lookup_insert_ne. congruence.
Qed.

Lemma failed_fetch_keeps_cache_witness :
  cache (snd (getAvailableModels Sample.token (2 * CACHE_DURATION_MS)
                (Status "500" "Internal Server Error") Sample.cachedWorld))
  = cache Sample.cachedWorld.
Proof.
  apply (proj1 (failed_fetch_keeps_cache Sample.token (2 * CACHE_DURATION_MS)
                  (Status "500" "Internal Server Error") Sample.cachedWorld)).
  reflexivity.
Defined.

Lemma clearCache_wellTimed oauthToken w :
  wellTimed w -> wellTimed (snd (clearCache oauthToken w)).
Proof.
  intros Hw k c. simpl. intros H.
  destruct (decide (hashToken oauthToken = k)) as [<-|Hne].
  - rewrite lookup_delete_eq in H. discriminate.
  - rewrite lookup_delete_ne in H by assumption. exact (Hw k c H).
Qed.

Lemma afterAll_wellTimed calls :
  forall w, wellTimed w -> wellTimed (afterAll calls w).
Proof.
  induction calls as [|c calls IH]; intros w Hw; simpl; [exact Hw|].
  apply IH. destruct c as [oauthToken now r|oauthToken|]; simpl.
  - apply getAvailableModels_wellTimed. exact Hw.
  - apply clearCache_wellTimed. exact Hw.
  - apply wellTimed_empty.
Qed.

(** X6.  In every state the manager can reach from an empty cache by
    calls of [getAvailableModels], [clearCache] and [clearAllCache], a
    call of [getAvailableModels] sends no request when the credential
    has an unexpired entry, and sends exactly one request otherwise: the
    minimum-refresh-interval branch is never the one that answers. *)
Theorem reachable_call_fetches_iff_not_fresh calls log oauthToken now r :
  let w := afterAll calls (mkWorld ∅ log) in
  (exists c, cache w !! hashToken oauthToken = Some c
             /\ now < expiresAt c
             /\ getAvailableModels oauthToken now r w = (inr (models c), w))
  \/ ((cache w !! hashToken oauthToken = None
       \/ exists c, cache w !! hashToken oauthToken = Some c /\ expiresAt c <= now)
      /\ fetches (snd (getAvailableModels oauthToken now r w))
         = (fetches w ++ [oauthToken])%list).
Proof.
  intros w.
  assert (Hw : wellTimed w) by (apply afterAll_wellTimed, wellTimed_empty).
  destruct (cache w !! hashToken oauthToken) as [c|] eqn:Hc.
  - destruct (Z.lt_ge_cases now (expiresAt c)) as [Hlt|Hge].
    + left. exists c. split; [reflexivity|]. split; [exact Hlt|].
      apply getAvailableModels_fresh; assumption.
    + right. split; [right; eauto|].
      unfold getAvailableModels. rewrite Hc.
      assert (Hx : (expiresAt c >? now) = false).
      { destruct (Z.gtb_spec (expiresAt c) now); [lia | reflexivity]. }
      rewrite Hx.
      rewrite (cooldown_never_holds_when_expired c now (Hw _ _ Hc) Hx).
      destruct r; reflexivity.
  - right. split; [left; reflexivity|].
    apply getAvailableModels_no_entry. exact Hc.
Qed.

End CacheLifecycle.

Section CacheQueries.
Import Js Exc DynamicModelsManager Notions ModelQueries.

Implicit Types (oauthToken : JValue) (now : Z) (r : Response) (w : World).



(** X8.  [getCacheInfo] is [null] exactly when the credential has no
    entry.  Otherwise [expiresIn] is never negative; while it is
    positive, [getAvailableModels] at that time returns the
    [modelsCount] cached models without a request; once it is 0, in a
    cache whose entries carry the manager's own time stamps,
    [getAvailableModels] goes to the provider. *)
Theorem getCacheInfo_expiresIn (toISOString : Z -> string) oauthToken now w :
  (fst (getCacheInfo toISOString oauthToken now w) = inr None
   <-> cache w !! hashToken oauthToken = None)
  /\ (forall info,
        fst (getCacheInfo toISOString oauthToken now w) = inr (Some info) ->
        0 <= expiresIn info
        /\ (0 < expiresIn info ->
            forall r, exists listing,
              getAvailableModels oauthToken now r w = (inr listing, w)
              /\ length listing = modelsCount info)
        /\ (expiresIn info = 0 -> wellTimed w ->
            forall r, fetches (snd (getAvailableModels oauthToken now r w))
                      = (fetches w ++ [oauthToken])%list)).
Proof.
  unfold getCacheInfo.
  destruct (cache w !! hashToken oauthToken) as [c|] eqn:Hc; simpl.
  - split; [split; discriminate|].
    intros info [= <-]. simpl. split; [lia|]. split.
    + intros Hpos r. exists (models c). split; [|reflexivity].
      apply getAvailableModels_fresh; [exact Hc | lia].
    + intros Hz Hw r. unfold getAvailableModels. rewrite Hc.
      assert (Hx : (expiresAt c >? now) = false).
      { destruct (Z.gtb_spec (expiresAt c) now); [lia | reflexivity]. }
      rewrite Hx.
      rewrite (cooldown_never_holds_when_expired c now (Hw _ _ Hc) Hx).
      destruct r; reflexivity.
  - split; [split; reflexivity|]. intros info H. discriminate.
Qed.

Lemma getCacheInfo_expiresIn_witness :
  exists listing,
    getAvailableModels Sample.token 1000 (Unreachable "offline") Sample.cachedWorld
    = (inr listing, Sample.cachedWorld)
    /\ length listing = 2%nat.
Proof.
  apply (proj1 (proj2 (proj2 (getCacheInfo_expiresIn (fun _ => "1970-01-01T00:00:00.000Z")
           Sample.token 1000 Sample.cachedWorld)
           (mkCacheInfo true 2 3599000 "1970-01-01T00:00:00.000Z")
           ltac:(vm_compute; reflexivity)))).
  vm_compute. reflexivity.
Defined.

Lemma toLowerCase_estimate (multiplierText : CopilotModel -> option string) m m' :
  multiplierText m = None -> multiplierText m' = None ->
  JsString.toLowerCase (id m) = JsString.toLowerCase (id m') ->
  getCostMultiplier multiplierText m = getCostMultiplier multiplierText m'.
Proof.
  intros H H' Hid. unfold getCostMultiplier. rewrite H, H', Hid. reflexivity.
Qed.

(** X9.  The cost label is the billing multiplier of the API followed by
    [x] whenever the API gave one; without billing data the label is one
    of [0x], [0.33x], [1x], [3x], [10x], and depends on the id only up to
    letter case. *)
Theorem getCostMultiplier_tiers (multiplierText : CopilotModel -> option string) m :
  (forall text, multiplierText m = Some text ->
     getCostMultiplier multiplierText m = text ++ "x")
  /\ (multiplierText m = None ->
      In (getCostMultiplier multiplierText m) ["0x"; "0.33x"; "1x"; "3x"; "10x"]
      /\ forall m', multiplierText m' = None ->
           JsString.toLowerCase (id m) = JsString.toLowerCase (id m') ->
           getCostMultiplier multiplierText m = getCostMultiplier multiplierText m').
Proof.
  split.
  - intros text H. unfold getCostMultiplier. rewrite H. reflexivity.
  - intros H. split.
    + unfold getCostMultiplier. rewrite H.
      repeat match goal with
             | |- context [if ?b then _ else _] => destruct b
             end; simpl; auto 8.
    + intros m' H' Hid. apply toLowerCase_estimate; assumption.
Qed.

Lemma getCostMultiplier_tiers_witness :
  In (getCostMultiplier (fun _ => None) (mkModel "Claude-Opus-4.1" "Claude Opus 4.1" JUndefined))
     ["0x"; "0.33x"; "1x"; "3x"; "10x"].
Proof.
  apply (proj2 (getCostMultiplier_tiers (fun _ => None)
                  (mkModel "Claude-Opus-4.1" "Claude Opus 4.1" JUndefined))).
  reflexivity.
Defined.

End CacheQueries.

(* ================================================================== *)
(** * Further properties of the node *)
(* ================================================================== *)

Section VisionScan.
Import Js Exc GitHubCopilotOpenAI Notions MessageNotions.

Lemma startsWith_prefix p s :
  JsString.startsWith p s = true <-> exists rest, s = p ++ rest.
Proof.
  revert s. induction p as [|a p IH]; intros s; simpl.
  - split; [intros _; exists s; reflexivity | reflexivity].
  - destruct s as [|b s]; [split; [discriminate | intros (rest & H); discriminate]|].
    rewrite andb_true_iff, IH. split.
    + intros (Hab & rest & ->). apply Ascii.eqb_eq in Hab as ->. exists rest. reflexivity.
    + intros (rest & [= -> ->]). split; [apply Ascii.eqb_refl | eauto].
Qed.

Lemma includes_infix p s :
  JsString.includes p s = true <-> exists before after, s = before ++ p ++ after.
Proof.
  induction s as [|c s IH].
  - simpl. rewrite orb_false_r, startsWith_prefix. split.
    + intros (rest & H). exists "", rest. exact H.
    + intros ([|b before] & after & H); [eauto | discriminate].
  - change (JsString.includes p (String c s))
      with (JsString.startsWith p (String c s) || JsString.includes p s).
    rewrite orb_true_iff, startsWith_prefix, IH. split.
    + intros [(rest & H)|(before & after & ->)].
      * exists "", rest. exact H.
      * exists (String c before), after. reflexivity.
    + intros ([|b before] & after & H).
      * left. eauto.
      * right. injection H as _ ->. eauto.
Qed.

Lemma isLineTerminator_false c :
  JsString.isLineTerminator c = false <-> c <> ascii_of_N 10 /\ c <> ascii_of_N 13.
Proof.
  destruct c as [[] [] [] [] [] [] [] []]; vm_compute;
    (split; [intros H; try discriminate H; split; discriminate
            | intros [H1 H2]; try reflexivity; exfalso; (apply H1; reflexivity) || (apply H2; reflexivity)]).
Qed.

Lemma closesOnLine_split s :
  closesOnLine s = true <-> exists right after, s = right ++ "]" ++ after /\ oneLine right.
Proof.
  induction s as [|c s IH]; simpl.
  - split; [discriminate | intros ([|b r] & after & H & _); discriminate].
  - destruct (Ascii.eqb_spec c "]") as [->|Hc].
    + split; [|reflexivity]. intros _. exists "", s. split; [reflexivity | exact I].
    + destruct (JsString.isLineTerminator c) eqn:Hl.
      * split; [discriminate|]. intros ([|b r] & after & H & Hr).
        -- injection H as H _. contradiction.
        -- injection H as -> _. simpl in Hr. destruct Hr as (H1 & H2 & _).
           assert (JsString.isLineTerminator b = false)
             by (apply isLineTerminator_false; auto).
           congruence.
      * rewrite IH. apply isLineTerminator_false in Hl. split.
        -- intros (r & after & -> & Hr). exists (String c r), after.
           split; [reflexivity|]. simpl. tauto.
        -- intros ([|b r] & after & H & Hr).
           ++ injection H as H _. contradiction.
           ++ injection H as -> ->. simpl in Hr. exists r, after. tauto.
Qed.

Lemma eqCI_letter (lower upper c : ascii) :
  (forall d, JsString.eqCI lower d = true -> d = lower \/ d = upper) ->
  JsString.eqCI lower lower = true -> JsString.eqCI lower upper = true ->
  JsString.eqCI lower c = true <-> c = lower \/ c = upper.
Proof.
  intros H Hl Hu. split; [apply H|]. intros [->| ->]; assumption.
Qed.

Ltac eqCI_cases :=
  intros d; destruct d as [[] [] [] [] [] [] [] []]; vm_compute;
  intros H; try discriminate H; auto.

Lemma eqCI_i c : JsString.eqCI "i" c = true <-> (c = "i" \/ c = "I")%char.
Proof. apply eqCI_letter; [eqCI_cases | reflexivity | reflexivity]. Qed.

Lemma eqCI_m c : JsString.eqCI "m" c = true <-> (c = "m" \/ c = "M")%char.
Proof. apply eqCI_letter; [eqCI_cases | reflexivity | reflexivity]. Qed.

Lemma eqCI_a c : JsString.eqCI "a" c = true <-> (c = "a" \/ c = "A")%char.
Proof. apply eqCI_letter; [eqCI_cases | reflexivity | reflexivity]. Qed.

Lemma eqCI_g c : JsString.eqCI "g" c = true <-> (c = "g" \/ c = "G")%char.
Proof. apply eqCI_letter; [eqCI_cases | reflexivity | reflexivity]. Qed.

Lemma eqCI_e c : JsString.eqCI "e" c = true <-> (c = "e" \/ c = "E")%char.
Proof. apply eqCI_letter; [eqCI_cases | reflexivity | reflexivity]. Qed.

Lemma startsWithCI_image s :
  JsString.startsWithCI "image" s = true
  <-> exists word, spellsImage word /\ s = word ++ JsString.drop 5 s.
Proof.
  split.
  - destruct s as [|i [|m [|a [|g [|e rest]]]]]; simpl;
      rewrite ?andb_false_r; try discriminate.
    rewrite !andb_true_iff, eqCI_i, eqCI_m, eqCI_a, eqCI_g, eqCI_e.
    intros (Hi & Hm & Ha & Hg & He & _).
    exists (String i (String m (String a (String g (String e ""))))).
    split; [|reflexivity]. exists i, m, a, g, e. tauto.
  - intros (word & (i & m & a & g & e & -> & Hi & Hm & Ha & Hg & He) & ->).
    simpl. rewrite !andb_true_iff, eqCI_i, eqCI_m, eqCI_a, eqCI_g, eqCI_e. tauto.
Qed.

Lemma drop_word word rest : spellsImage word -> JsString.drop 5 (word ++ rest) = rest.
Proof. intros (i & m & a & g & e & -> & _). reflexivity. Qed.

Lemma imageThenClose_split s :
  imageThenClose s = true
  <-> exists left word right after,
        s = left ++ word ++ right ++ "]" ++ after
        /\ oneLine left /\ spellsImage word /\ oneLine right.
Proof.
  assert (Hhead : forall s,
             JsString.startsWithCI "image" s && closesOnLine (JsString.drop 5 s) = true
             <-> exists word right after,
                   s = word ++ right ++ "]" ++ after
                   /\ spellsImage word /\ oneLine right).
  { intros t. rewrite andb_true_iff, startsWithCI_image, closesOnLine_split. split.
    - intros ((word & Hw & Hs) & right & after & Hd & Hr).
      exists word, right, after. rewrite <- Hd. auto.
    - intros (word & right & after & -> & Hw & Hr).
      rewrite (drop_word word _ Hw). split; eauto. }
  induction s as [|c s IH].
  - change (imageThenClose "") with
      (JsString.startsWithCI "image" "" && closesOnLine (JsString.drop 5 "") || false).
    rewrite orb_false_r, Hhead. split.
    + intros (word & right & after & H & Hw & Hr). exists "", word, right, after.
      simpl. auto.
    + intros ([|b l] & word & right & after & H & _ & Hw & Hr); [eauto 6 | discriminate].
  - change (imageThenClose (String c s)) with
      (JsString.startsWithCI "image" (String c s)
       && closesOnLine (JsString.drop 5 (String c s))
       || (if JsString.isLineTerminator c then false else imageThenClose s)).
    rewrite orb_true_iff, Hhead. split.
    + intros [(word & right & after & H & Hw & Hr)|H].
      * exists "", word, right, after. simpl. auto.
      * destruct (JsString.isLineTerminator c) eqn:Hl; [discriminate|].
        apply isLineTerminator_false in Hl.
        apply IH in H as (l & word & right & after & -> & Hl' & Hw & Hr).
        exists (String c l), word, right, after. simpl. tauto.
    + intros ([|b l] & word & right & after & H & Hl & Hw & Hr).
      * left. eauto 6.
      * right. injection H as -> ->. simpl in Hl. destruct Hl as (H1 & H2 & Hl).
        assert (JsString.isLineTerminator b = false) as ->
            by (apply isLineTerminator_false; auto).
        apply IH. eauto 8.
Qed.

Lemma matchesBracketImage_bracketImage s :
  matchesBracketImage s = true <-> bracketImage s.
Proof.
  unfold bracketImage. induction s as [|c s IH]; simpl.
  - split; [discriminate|].
    intros ([|b before] & l & word & right & after & H & _); discriminate.
  - rewrite orb_true_iff, andb_true_iff, IH, imageThenClose_split. split.
    + intros [(Hc & l & word & right & after & -> & H)|
              (before & l & word & right & after & -> & H)].
      * apply Ascii.eqb_eq in Hc as ->. exists "", l, word, right, after. auto.
      * exists (String c before), l, word, right, after. auto.
    + intros ([|b before] & l & word & right & after & H & Hrest).
      * left. injection H as -> ->. split; [reflexivity | eauto 8].
      * right. injection H as -> ->. eauto 8.
Qed.

Lemma isStr_eq v lit : isStr v lit = true <-> v = JStr lit.
Proof.
  destruct v; simpl; try (split; discriminate).
  rewrite String.eqb_eq. split; [intros ->; reflexivity | intros [= ->]; reflexivity].
Qed.

Lemma partIsImage_imagePart part : partIsImage part = true <-> imagePart part.
Proof.
  unfold partIsImage, imagePart.
  rewrite !orb_true_iff, !isStr_eq, truthy_not_falsy. tauto.
Qed.

Lemma stringHasImage_split s :
  stringHasImage s = true
  <-> (exists before after, s = before ++ "data:image/" ++ after)
      \/ bracketImage s
      \/ (exists rest, s = "copilot-file://" ++ rest).
Proof.
  unfold stringHasImage.
  rewrite !orb_true_iff, includes_infix, matchesBracketImage_bracketImage,
    startsWith_prefix. tauto.
Qed.

(** X10.  For a message array without [null] entries the vision scan
    does not raise, and it answers true exactly when some message has
    the message-level type [file] or [image], or a string content that
    contains [data:image/], matches [/\[.*image.*\]/i] (a bracket, the
    word image in any case and a closing bracket on one line) or starts
    with [copilot-file://], or a content array with a part of type
    [image_url], [image] or [file] or with an [image_url] member that
    is not falsy. *)
Theorem vision_scan_characterised msgs :
  Forall (fun msg => isNullish msg = false) msgs ->
  exists found,
    hasVisionContent (JArr msgs) = inr found
    /\ (found = true <->
        exists msg,
          In msg msgs
          /\ (getOpt msg "type" = JStr "file"
              \/ getOpt msg "type" = JStr "image"
              \/ (exists s, getOpt msg "content" = JStr s
                            /\ ((exists before after,
                                    s = before ++ "data:image/" ++ after)
                                \/ bracketImage s
                                \/ (exists rest, s = "copilot-file://" ++ rest)))
              \/ (exists parts part, getOpt msg "content" = JArr parts
                                     /\ In part parts /\ imagePart part))).
Proof.
  intros Hall. exists (existsb carriesVision msgs).
  split; [exact (scanMessages_existsb msgs Hall)|].
  rewrite existsb_exists. split.
  - intros (msg & Hin & Hc). exists msg. split; [exact Hin|].
    unfold carriesVision in Hc. rewrite !orb_true_iff, !isStr_eq in Hc.
    destruct Hc as [[Hc|Hc]|Hc]; auto.
    destruct (getOpt msg "content") as [| | | |s|parts|]; try discriminate.
    + right. right. left. exists s. split; [reflexivity|].
      apply stringHasImage_split. exact Hc.
    + right. right. right. apply existsb_exists in Hc as (part & Hp & Hi).
      apply partIsImage_imagePart in Hi. eauto.
  - intros (msg & Hin & Hc). exists msg. split; [exact Hin|].
    unfold carriesVision. rewrite !orb_true_iff, !isStr_eq.
    destruct Hc as [Hc|[Hc|[(s & -> & Hs)|(parts & part & -> & Hp & Hi)]]]; auto.
    + right. apply stringHasImage_split. exact Hs.
    + right. apply existsb_exists. exists part. split; [exact Hp|].
      apply partIsImage_imagePart. exact Hi.
Qed.

End VisionScan.

Lemma vision_scan_characterised_witness :
  GitHubCopilotOpenAI.hasVisionContent
    (Js.JArr [Sample.userMessage "describe this";
              Sample.userMessage "see [Image 1] below"])
  = inr true.
Proof.
  destruct (vision_scan_characterised
              [Sample.userMessage "describe this";
               Sample.userMessage "see [Image 1] below"]
              ltac:(repeat constructor)) as (found & H & Hfound).
  rewrite H. f_equal. apply Hfound.
  exists (Sample.userMessage "see [Image 1] below").
  split; [simpl; auto|]. right. right. left.
  exists "see [Image 1] below". split; [reflexivity|]. right. left.
  exists "see ", "", "Image", " 1", " below".
  split; [reflexivity|]. split; [exact I|]. split.
  - exists "I"%char, "m"%char, "a"%char, "g"%char, "e"%char. tauto.
  - simpl. repeat split; discriminate.
Defined.

Section LoopProperties.
Import Js Exc GitHubCopilotOpenAI Notions.

Variable JSON_parse : JValue -> string + JValue.

Local Abbreviation handleError := (handleError JSON_parse).
Local Abbreviation executeFrom := (executeFrom JSON_parse).
Local Abbreviation execute := (execute JSON_parse).
Local Abbreviation pushedFrom := (pushedFrom JSON_parse).
Local Abbreviation pushedFor := (pushedFor JSON_parse).

(** Whatever the setting of continue-on-fail, a loop that returns has
    pushed one entry per item. *)
Lemma executeFrom_returns continueOnFail outcomes :
  forall i returnData data,
    executeFrom continueOnFail i outcomes returnData = Returns data ->
    data = [(returnData ++ pushedFrom i outcomes)%list].
Proof.
  induction outcomes as [|o rest IH]; intros i returnData data; simpl.
  - intros [= <-]. rewrite app_nil_r. reflexivity.
  - destruct o as [r|error].
    + intros H. apply IH in H. rewrite <- app_assoc in H. exact H.
    + unfold GitHubCopilotOpenAI.handleError.
      destruct continueOnFail; [|discriminate].
      destruct (is400Error _ _); [discriminate|].
      intros H. apply IH in H. rewrite <- app_assoc in H. exact H.
Qed.

Lemma pushedFrom_length outcomes : forall i, length (pushedFrom i outcomes) = length outcomes.
Proof. induction outcomes as [|o rest IH]; intros i; simpl; [reflexivity | now rewrite IH]. Qed.

Lemma pushedFrom_nth outcomes :
  forall i k, nth_error (pushedFrom i outcomes) k
              = option_map (pushedFor (i + k)) (nth_error outcomes k).
Proof.
  induction outcomes as [|o rest IH]; intros i k; simpl.
  - destruct k; reflexivity.
  - destruct k as [|k]; simpl.
    + rewrite Nat.add_0_r. reflexivity.
    + rewrite IH. replace (S i + k)%nat with (i + S k)%nat by lia. reflexivity.
Qed.

Lemma pushedFor_paired i o :
  getOpt (pushedFor i o) "pairedItem" = JObj [("item", JNum (Z.of_nat i))].
Proof.
  destruct o as [r|error]; simpl; [reflexivity|].
  destruct (errorDetails _ _ _) as [[[m t] pa] c]. reflexivity.
Qed.

(** X11.  Without continue-on-fail, the first item that fails ends
    [execute] with the very value that was caught, whatever follows; the
    responses of the items before it are not returned. *)
Theorem first_failure_propagates before error after :
  Forall (fun o => exists r, o = Succeeded r) before ->
  execute false (before ++ Failed error :: after) = ThrowsCaught error.
Proof.
  intros Hbefore. unfold GitHubCopilotOpenAI.execute.
  generalize (@nil JValue). generalize 0%nat.
  induction Hbefore as [|o rest [r ->] _ IH]; intros i returnData; simpl;
    [reflexivity | apply IH].
Qed.

(** X12.  Whenever [execute] returns, the output holds exactly one entry
    per input item, in order, and the entry of item [k] is paired with
    [k]; the entry of an item that succeeded carries its response, the
    entry of an item that failed carries an [error] object. *)
Theorem execute_output_aligned continueOnFail outcomes data :
  execute continueOnFail outcomes = Returns data ->
  exists items,
    data = [items]
    /\ length items = length outcomes
    /\ forall k item,
         nth_error items k = Some item ->
         getOpt item "pairedItem" = JObj [("item", JNum (Z.of_nat k))]
         /\ (forall r, nth_error outcomes k = Some (Succeeded r) ->
                       getOpt item "json" = r)
         /\ (forall e, nth_error outcomes k = Some (Failed e) ->
                       exists details, getOpt (getOpt item "json") "error" = JObj details).
Proof.
  intros H. apply executeFrom_returns in H. simpl in H.
  exists (pushedFrom 0 outcomes). split; [exact H|].
  split; [apply pushedFrom_length|].
  intros k item Hk. rewrite pushedFrom_nth in Hk. simpl in Hk.
  destruct (nth_error outcomes k) as [o|]; [|discriminate].
  injection Hk as <-. split; [apply pushedFor_paired|]. split.
  - intros r [= ->]. reflexivity.
  - intros e [= ->]. simpl.
    destruct (errorDetails _ _ _) as [[[m t] pa] c]. simpl. eauto.
Qed.

End LoopProperties.

Lemma execute_output_aligned_witness :
  exists items,
    [[ GitHubCopilotOpenAI.responseItem 0 (Js.JObj []);
       Notions.openAIError 1 (Js.JStr "Request timeout. Please try again.")
         (Js.JStr "api_error") Js.JNull (Js.JStr "timeout") ]] = [items]
    /\ length items = 2%nat.
Proof.
  destruct (execute_output_aligned Sample.JSON_parse true
              [GitHubCopilotOpenAI.Succeeded (Js.JObj []);
               GitHubCopilotOpenAI.Failed Sample.timeoutError]
              [[ GitHubCopilotOpenAI.responseItem 0 (Js.JObj []);
                 Notions.openAIError 1 (Js.JStr "Request timeout. Please try again.")
                   (Js.JStr "api_error") Js.JNull (Js.JStr "timeout") ]]
              ltac:(vm_compute; reflexivity)) as (items & H1 & H2 & _).
  exists items. split; assumption.
Defined.

Lemma first_failure_propagates_witness :
  GitHubCopilotOpenAI.execute Sample.JSON_parse false
    [GitHubCopilotOpenAI.Succeeded (Js.JObj []);
     GitHubCopilotOpenAI.Failed Sample.timeoutError;
     GitHubCopilotOpenAI.Succeeded (Js.JObj [])]
  = GitHubCopilotOpenAI.ThrowsCaught Sample.timeoutError.
Proof.
  apply (first_failure_propagates Sample.JSON_parse
           [GitHubCopilotOpenAI.Succeeded (Js.JObj [])] Sample.timeoutError
           [GitHubCopilotOpenAI.Succeeded (Js.JObj [])]).
  repeat constructor. exists (Js.JObj []). reflexivity.
Defined.

Section ErrorTexts.
Import Js Exc GitHubCopilotOpenAI Notions MessageNotions.

Variable JSON_parse : JValue -> string + JValue.

Local Abbreviation handleError := (handleError JSON_parse).
Local Abbreviation extractApiError := (extractApiError JSON_parse).


Lemma trimEnd_idempotent s : JsString.trimEnd (JsString.trimEnd s) = JsString.trimEnd s.
Proof.
  induction s as [|c t IH]; simpl; [reflexivity|].
  destruct (JsString.trimEnd t) as [|c' t'] eqn:E.
  - destruct (JsString.isWhiteSpace c) eqn:Hc; simpl; [reflexivity|].
    rewrite Hc. reflexivity.
  - simpl in IH. simpl. destruct (JsString.trimEnd t') as [|c'' t''] eqn:E'.
    + destruct (JsString.isWhiteSpace c') eqn:Hc'; [discriminate|]. rewrite IH. reflexivity.
    + rewrite IH. reflexivity.
Qed.

Lemma trimEnd_head c t :
  JsString.isWhiteSpace c = false ->
  JsString.trimEnd (String c t) = String c (JsString.trimEnd t).
Proof.
  intros H. simpl. destruct (JsString.trimEnd t); [rewrite H|]; reflexivity.
Qed.

Lemma trimStart_head s :
  JsString.trimStart s = EmptyString
  \/ exists c t, JsString.trimStart s = String c t /\ JsString.isWhiteSpace c = false.
Proof.
  induction s as [|c t IH]; simpl; [left; reflexivity|].
  destruct (JsString.isWhiteSpace c) eqn:H; [exact IH|]. right. eauto.
Qed.

(** Trimming twice is trimming once. *)
Lemma trim_idempotent s : JsString.trim (JsString.trim s) = JsString.trim s.
Proof.
  unfold JsString.trim.
  destruct (trimStart_head s) as [->|(c & t & -> & Hc)]; [reflexivity|].
  rewrite (trimEnd_head c t Hc). simpl JsString.trimStart. rewrite Hc.
  rewrite <- (trimEnd_head c t Hc). apply trimEnd_idempotent.
Qed.

Lemma singleSpaced_collapse s : forall b, singleSpaced b (collapseSpaces b s) = true.
Proof.
  induction s as [|c t IH]; intros b; simpl; [reflexivity|].
  destruct (JsString.isWhiteSpace c) eqn:Hc.
  - destruct b; [apply IH|]. simpl. rewrite IH. reflexivity.
  - simpl. rewrite Hc. apply IH.
Qed.

Lemma singleSpaced_weaken s b : singleSpaced b s = true -> singleSpaced false s = true.
Proof.
  destruct s as [|c t]; simpl; [auto|].
  destruct (JsString.isWhiteSpace c); [|auto].
  destruct b; simpl; [discriminate | auto].
Qed.

Lemma singleSpaced_trimStart s : forall b,
  singleSpaced b s = true -> singleSpaced true (JsString.trimStart s) = true.
Proof.
  induction s as [|c t IH]; intros b; simpl; [auto|].
  destruct (JsString.isWhiteSpace c) eqn:Hc.
  - intros H. apply andb_true_iff in H as [_ H]. exact (IH true H).
  - intros H. simpl. rewrite Hc. exact H.
Qed.

Lemma singleSpaced_trimEnd s : forall b,
  singleSpaced b s = true -> singleSpaced b (JsString.trimEnd s) = true.
Proof.
  induction s as [|c t IH]; intros b; simpl; [auto|].
  destruct (JsString.isWhiteSpace c) eqn:Hc.
  - intros H. apply andb_true_iff in H as [H1 H2].
    specialize (IH true H2).
    destruct (JsString.trimEnd t) as [|c' t']; [reflexivity|].
    simpl. rewrite Hc. simpl in IH. rewrite H1. exact IH.
  - intros H. specialize (IH false H).
    destruct (JsString.trimEnd t) as [|c' t']; simpl; rewrite Hc; [reflexivity|].
    exact IH.
Qed.

Lemma collapse_singleSpaced s : forall b,
  singleSpaced b s = true -> collapseSpaces b s = s.
Proof.
  induction s as [|c t IH]; intros b; simpl; [reflexivity|].
  destruct (JsString.isWhiteSpace c) eqn:Hc.
  - intros H. apply andb_true_iff in H as [H1 H2].
    apply andb_true_iff in H1 as [Hb Heq].
    apply negb_true_iff in Hb. subst b.
    apply Ascii.eqb_eq in Heq. subst c. rewrite (IH true H2). reflexivity.
  - intros H. rewrite (IH false H). reflexivity.
Qed.

(** X14.  A cleaned error message has no whitespace at either end, and
    inside it whitespace occurs only as single blanks: trimming it or
    collapsing its whitespace again changes nothing. *)
Theorem cleanErrorMessage_single_spaced errorMessage :
  let cleanMessage := cleanErrorMessage errorMessage in
  JsString.trim cleanMessage = cleanMessage
  /\ singleSpaced true cleanMessage = true
  /\ collapseSpaces false cleanMessage = cleanMessage.
Proof.
  intros cleanMessage. unfold cleanErrorMessage in cleanMessage.
  set (m := JsString.trim (removeApiErrorPrefix _)) in cleanMessage.
  assert (Hs : singleSpaced true cleanMessage = true).
  { subst cleanMessage. unfold JsString.trim.
    apply singleSpaced_trimEnd.
    apply (singleSpaced_trimStart _ false), singleSpaced_collapse. }
  split; [subst cleanMessage; apply trim_idempotent|].
  split; [exact Hs|].
  apply collapse_singleSpaced. apply (singleSpaced_weaken _ true). exact Hs.
Qed.

End ErrorTexts.


Section MessageProperties.
Import Js Exc GitHubCopilotOpenAI Notions MessageNotions.

Variable JSON_parse : JValue -> string + JValue.
Variable JSON_stringify : JValue -> string.
Variable getModelByValue : string -> JValue.

Local Abbreviation parseMessages := (parseMessages JSON_parse).
Local Abbreviation prepareMessages := (prepareMessages JSON_parse JSON_stringify).
Local Abbreviation normalizeMessage := (normalizeMessage JSON_stringify).
Local Abbreviation prepareRequest :=
  (prepareRequest JSON_parse JSON_stringify getModelByValue).
Local Abbreviation supportsVision := (supportsVision getModelByValue).
Local Abbreviation staticSupportsVision := (staticSupportsVision getModelByValue).

Implicit Types (p : NodeParameters) (w : DynamicModelsManager.World)
               (credentials : M JValue).

Lemma checkParts_result i parts :
  forallb (fun part => negb (isNullish part)) parts = true ->
  checkParts i parts
  = if existsb (fun part => isStr (getOpt part "type") "file") parts
    then inl (NodeOperationError fileInContentMessage i None)
    else inr tt.
Proof.
  induction parts as [|part rest IH]; simpl; [reflexivity|].
  intros H. apply andb_true_iff in H as [Hp Hr].
  unfold getOpt. destruct part; try discriminate; simpl; try (apply IH; exact Hr).
  destruct (isStr (assoc "type" props) "file"); [reflexivity | apply IH; exact Hr].
Qed.

Lemma validateMessage_result i msg :
  partsDefined msg = true ->
  validateMessage i msg
  = if hasFilePart msg
    then inl (NodeOperationError fileInContentMessage i None)
    else inr tt.
Proof.
  unfold partsDefined, hasFilePart, validateMessage, getOpt.
  intros H. apply andb_true_iff in H as [Hm Hp].
  destruct msg; try discriminate; simpl in *; try reflexivity.
  destruct (assoc "content" props); try reflexivity.
  apply checkParts_result. exact Hp.
Qed.

Lemma validation_result i msgs :
  forallb partsDefined msgs = true ->
  forEachM (validateMessage i) msgs
  = if existsb hasFilePart msgs
    then inl (NodeOperationError fileInContentMessage i None)
    else inr tt.
Proof.
  induction msgs as [|msg rest IH]; simpl; [reflexivity|].
  intros H. apply andb_true_iff in H as [Hm Hr].
  rewrite (validateMessage_result i msg Hm).
  destruct (hasFilePart msg); simpl; [reflexivity | apply IH; exact Hr].
Qed.

Lemma prepareMessages_array i p msg rest :
  parseMessages p = inr (JArr (msg :: rest)) ->
  prepareMessages i p
  = (let* _ := forEachM (validateMessage i) (msg :: rest) in
     let* msgs := mapM normalizeMessage (msg :: rest) in
     ret (JArr msgs)).
Proof.
  intros Hp. unfold GitHubCopilotOpenAI.prepareMessages. rewrite Hp. reflexivity.
Qed.

(** X15.  A message list in which some content array holds a part of
    type [file] is refused: the item fails with the [NodeOperationError]
    that explains the message-level format, and no request is built.
    (The messages and their parts are objects; a [null] among them
    raises a [TypeError] at the first one met.) *)
Theorem file_part_is_refused i p msgs :
  parseMessages p = inr (JArr msgs) ->
  forallb partsDefined msgs = true ->
  existsb hasFilePart msgs = true ->
  prepareMessages i p = inl (NodeOperationError fileInContentMessage i None)
  /\ forall credentials w,
       threw (requestedModel p) = false ->
       prepareRequest i p credentials w
       = inl (NodeOperationError fileInContentMessage i None).
Proof.
  intros Hp Hd Hf.
  assert (Hs : prepareMessages i p = inl (NodeOperationError fileInContentMessage i None)).
  { destruct msgs as [|msg rest]; [discriminate|].
    rewrite (prepareMessages_array i p msg rest Hp).
    rewrite (validation_result i (msg :: rest) Hd), Hf. reflexivity. }
  split; [exact Hs|]. intros credentials w Hm.
  unfold GitHubCopilotOpenAI.prepareRequest.
  destruct (requestedModel p); [discriminate|]. simpl.
  fold prepareMessages. rewrite Hs. reflexivity.
Qed.










Lemma manualMessage_type msg message :
  manualMessage msg = inr message ->
  getOpt message "type" = JUndefined
  \/ getOpt message "type" = JStr "text"
  \/ getOpt message "type" = JStr "image_url".
Proof.
  unfold manualMessage.
  destruct (get msg "role") as [role|]; [|discriminate].
  destruct (get msg "content") as [content|]; [|discriminate].
  destruct (get msg "type") as [type|]; [|discriminate].
  destruct (truthy type && (isStr type "text" || isStr type "image_url")) eqn:E;
    intros [= <-]; [|left; reflexivity].
  apply andb_true_iff in E as [_ E]. apply orb_true_iff in E as [E|E];
    destruct type; try discriminate; simpl in E; apply String.eqb_eq in E; subst s.
  - right. left. reflexivity.
  - right. right. reflexivity.
Qed.

Lemma mapM_Forall {A B} (f : A -> M B) (P : B -> Prop) :
  (forall a b, f a = inr b -> P b) ->
  forall l l', mapM f l = inr l' -> Forall P l'.
Proof.
  intros Hf. induction l as [|a l IH]; simpl; intros l' H.
  - injection H as <-. constructor.
  - destruct (f a) as [|b] eqn:Ea; [discriminate|]. simpl in H.
    destruct (mapM f l) as [|bs]; [discriminate|]. simpl in H.
    injection H as <-. constructor; [exact (Hf a b Ea) | exact (IH bs eq_refl)].
Qed.

(** X17.  In manual mode a message keeps a message-level [type] only
    when it is [text] or [image_url]; any other type, [file] and [image]
    included, is dropped, so the type test of the vision scan never
    fires on a manual-mode message. *)
Theorem manual_mode_keeps_text_types_only p ms :
  messagesInputMode p <> "json" ->
  parseMessages p = inr ms ->
  exists msgs,
    ms = JArr msgs
    /\ Forall (fun message =>
                 (getOpt message "type" = JUndefined
                  \/ getOpt message "type" = JStr "text"
                  \/ getOpt message "type" = JStr "image_url")
                 /\ isStr (getOpt message "type") "file"
                    || isStr (getOpt message "type") "image" = false) msgs.
Proof.
  intros Hmode. apply String.eqb_neq in Hmode.
  unfold GitHubCopilotOpenAI.parseMessages, parseManualMessages. rewrite Hmode.
  destruct (get (messages p) "message") as [v|]; [|discriminate].
  destruct v; try (intros [= <-]; exists []; split; [reflexivity | constructor]).
  destruct (mapM manualMessage items) as [|msgs] eqn:E; [discriminate|]. simpl.
  intros [= <-]. exists msgs. split; [reflexivity|].
  apply (mapM_Forall manualMessage _) with (l := items); [|exact E].
  intros a b H. pose proof (manualMessage_type a b H) as Ht.
  split; [exact Ht|].
  destruct Ht as [->|[->| ->]]; reflexivity.
Qed.

End MessageProperties.

Lemma file_part_is_refused_witness :
  GitHubCopilotOpenAI.prepareMessages Sample.JSON_parse Sample.JSON_stringify 3
    (Sample.jsonParams "gpt-4o" [Sample.userMessage "hi"; MoreSamples.fileInContent]
       (Js.JObj []))
  = inl (Exc.NodeOperationError GitHubCopilotOpenAI.fileInContentMessage 3 None).
Proof.
  apply (proj1 (file_part_is_refused Sample.JSON_parse Sample.JSON_stringify
                  Sample.getModelByValue 3
                  (Sample.jsonParams "gpt-4o"
                     [Sample.userMessage "hi"; MoreSamples.fileInContent] (Js.JObj []))
                  [Sample.userMessage "hi"; MoreSamples.fileInContent]
                  eq_refl eq_refl eq_refl)).
Defined.


Lemma manual_mode_keeps_text_types_only_witness :
  exists msgs,
    Js.JArr [Js.JObj [("role", Js.JStr "user");
                      ("content", Js.JStr "what is in this file?")]]
    = Js.JArr msgs
    /\ Forall (fun message =>
                 (Js.getOpt message "type" = Js.JUndefined
                  \/ Js.getOpt message "type" = Js.JStr "text"
                  \/ Js.getOpt message "type" = Js.JStr "image_url")
                 /\ Js.isStr (Js.getOpt message "type") "file"
                    || Js.isStr (Js.getOpt message "type") "image" = false) msgs.
Proof.
  apply (manual_mode_keeps_text_types_only Sample.JSON_parse MoreSamples.manualParams).
  - vm_compute. intros H. discriminate H.
  - vm_compute. reflexivity.
Defined.

Section ModelChoice.
Import Js Exc GitHubCopilotOpenAI Notions.

Variable JSON_parse : JValue -> string + JValue.
Variable JSON_stringify : JValue -> string.
Variable getModelByValue : string -> JValue.

Local Abbreviation prepareRequest :=
  (prepareRequest JSON_parse JSON_stringify getModelByValue).
Local Abbreviation supportsVision := (supportsVision getModelByValue).
Local Abbreviation visionFallback := (visionFallback getModelByValue).

Implicit Types (p : NodeParameters) (w : DynamicModelsManager.World)
               (credentials : M JValue).

Lemma requireText_inr v e s :
  requireText v e = inr s -> v = JStr s /\ JsString.isEmpty (JsString.trim s) = false.
Proof.
  unfold requireText. destruct v; try (destruct (truthy _); discriminate).
  destruct (JsString.isEmpty s0 || JsString.isEmpty (JsString.trim s0)) eqn:E;
    [discriminate|].
  intros [= <-]. apply orb_false_iff in E as [_ E]. split; [reflexivity | exact E].
Qed.

Lemma visionFallback_inr i credentials w ao copilotModel sent :
  visionFallback i credentials w ao copilotModel = inr sent ->
  (sent = copilotModel
   /\ exists creds oauthToken,
        credentials = inr creds
        /\ get creds "oauthToken" = Some oauthToken
        /\ supportsVision oauthToken w copilotModel = inr true)
  \/ (truthy (getOpt ao "enableVisionFallback") = true
      /\ configuredFallback ao = JStr sent
      /\ JsString.isEmpty (JsString.trim sent) = false).
Proof.
  unfold GitHubCopilotOpenAI.visionFallback.
  destruct credentials as [|creds]; [discriminate|]. simpl.
  destruct (get creds "oauthToken") as [oauthToken|] eqn:Ho; [|discriminate].
  destruct (supportsVision oauthToken w copilotModel) as [|[|]] eqn:Hs;
    [discriminate| |]; simpl.
  - intros [= <-]. left. split; [reflexivity|]. eauto.
  - destruct (truthy (getOpt ao "enableVisionFallback")) eqn:He; [|discriminate].
    intros H. apply requireText_inr in H as [H1 H2]. right. auto.
Qed.

(** X18.  The model of a request is never anything but the requested
    model after alias mapping or the configured fallback.  Without
    vision content it is the mapped model.  With vision content it is
    the mapped model, and then that model supports vision, or it is the
    fallback id, and then the fallback is enabled and that id is not
    blank; whether the fallback itself supports vision is not looked
    up. *)
Theorem request_model_is_mapped_or_fallback i p credentials w request model :
  requestedModel p = inr model ->
  inheritedKey model = false ->
  prepareRequest i p credentials w = inr request ->
  (vision request = false /\ body_model request = mapModel model)
  \/ (vision request = true
      /\ ((body_model request = mapModel model
           /\ exists creds oauthToken,
                credentials = inr creds
                /\ get creds "oauthToken" = Some oauthToken
                /\ supportsVision oauthToken w (mapModel model) = inr true)
          \/ (truthy (getOpt (advancedOptions p) "enableVisionFallback") = true
              /\ configuredFallback (advancedOptions p) = JStr (body_model request)
              /\ JsString.isEmpty (JsString.trim (body_model request)) = false))).
Proof.
  intros Hm _. unfold GitHubCopilotOpenAI.prepareRequest. rewrite Hm. simpl.
  destruct (prepareMessages _ _ i p) as [|ms]; [discriminate|]. simpl.
  destruct (get (advancedOptions p) "tools"); [|discriminate].
  destruct (hasVisionContent ms) as [|[|]]; [discriminate| |]; simpl.
  - destruct (visionFallback i credentials w (advancedOptions p) (mapModel model))
      as [|sent] eqn:Hf; [discriminate|]. simpl.
    intros [= <-]. simpl. right. split; [reflexivity|].
    apply visionFallback_inr in Hf as [[-> H]|H]; [left | right]; auto.
  - intros [= <-]. left. split; reflexivity.
Qed.

(** X19.  The cached listing has the last word on vision support: when
    it lists the model, its declaration is the answer whatever the
    static table says; the static table is consulted only when the
    credential has no entry or the entry does not list the model. *)
Theorem cached_answer_overrides_static_table oauthToken w copilotModel :
  (forall c m,
     DynamicModelsManager.cache w !! DynamicModelsManager.hashToken oauthToken = Some c ->
     descriptorOf copilotModel (DynamicModelsManager.models c) = Some m ->
     supportsVision oauthToken w copilotModel
     = inr (DynamicModelsManager.declaresVision m))
  /\ (DynamicModelsManager.cache w !! DynamicModelsManager.hashToken oauthToken = None
      \/ (exists c,
            DynamicModelsManager.cache w !! DynamicModelsManager.hashToken oauthToken = Some c
            /\ descriptorOf copilotModel (DynamicModelsManager.models c) = None) ->
      supportsVision oauthToken w copilotModel
      = inr (staticSupportsVision getModelByValue copilotModel)).
Proof.
  unfold GitHubCopilotOpenAI.supportsVision, DynamicModelsManager.modelSupportsVision,
    DynamicModelsManager.getModelFromCache, descriptorOf.
  split.
  - intros c m -> Hd. simpl. rewrite Hd. reflexivity.
  - intros [->|(c & -> & Hd)]; simpl; [reflexivity|]. rewrite Hd. reflexivity.
Qed.

End ModelChoice.

Lemma request_model_is_mapped_or_fallback_witness :
  GitHubCopilotOpenAI.body_model
    (GitHubCopilotOpenAI.mkRequest "gpt-4o" (Js.JArr [Sample.userMessage "hi"]) false)
  = GitHubCopilotOpenAI.mapModel "gpt-4".
Proof.
  destruct (request_model_is_mapped_or_fallback Sample.JSON_parse Sample.JSON_stringify
              Sample.getModelByValue 0
              (Sample.jsonParams "gpt-4" [Sample.userMessage "hi"] (Js.JObj []))
              Sample.credentials Sample.emptyWorld
              (GitHubCopilotOpenAI.mkRequest "gpt-4o" (Js.JArr [Sample.userMessage "hi"]) false)
              "gpt-4" eq_refl eq_refl ltac:(vm_compute; reflexivity)) as [[_ H]|[H _]].
  - exact H.
  - discriminate H.
Defined.

Lemma cached_answer_overrides_static_table_witness :
  GitHubCopilotOpenAI.supportsVision (fun _ => Js.JUndefined) Sample.token
    Sample.cachedWorld "gpt-4o"
  = inr true.
Proof.
  apply (proj1 (cached_answer_overrides_static_table (fun _ => Js.JUndefined)
                  Sample.token Sample.cachedWorld "gpt-4o")
               (DynamicModelsManager.mkCache Sample.listing 0
                  DynamicModelsManager.CACHE_DURATION_MS
                  (DynamicModelsManager.hashToken Sample.token))
               Sample.gpt4o).
  - vm_compute. reflexivity.
  - reflexivity.
Defined.

Section ReplyCleanUp.
Import Js Exc GitHubCopilotOpenAI ResponseFormat.

Variable JSON_parse : JValue -> string + JValue.

(** X20.  With a [JSON.parse] that refuses the bare word [text] (as
    the real one does), the legacy branch never yields a response
    format: the choice is the [response_format] of a request body
    received in JSON mode if it is truthy, else the UI field when it is
    set to something other than [text], else none. *)
Theorem legacy_response_format_never_applies body advancedOptions :
  (exists syntaxError, JSON_parse (JStr "text") = inl syntaxError) ->
  response_format JSON_parse body advancedOptions
  = if truthy (getOpt body "response_format")
    then getOpt body "response_format"
    else
      let field := getOpt advancedOptions "response_format" in
      if truthy field && negb (isStr field "text")
      then JObj [("type", field)]
      else JUndefined.
Proof.
  intros [syntaxError Hparse]. unfold response_format.
  destruct (truthy (getOpt body "response_format")); [reflexivity|].
  cbv zeta. unfold orElse.
  destruct (getOpt advancedOptions "response_format") as [| |b|n|s|items|props];
    try reflexivity.
  - destruct b; reflexivity.
  - destruct (Z.eqb_spec n 0) as [->|Hn]; [reflexivity|].
    apply Z.eqb_neq in Hn. unfold truthy. rewrite Hn. simpl. rewrite ?Hn. reflexivity.
  - destruct s as [|c t]; [reflexivity|].
    destruct (String.eqb (String c t) "text") eqn:E.
    + apply String.eqb_eq in E. rewrite E. simpl. rewrite Hparse. reflexivity.
    + unfold truthy, isStr, JsString.isEmpty. cbn [negb andb]. rewrite E. reflexivity.
Qed.

End ReplyCleanUp.

Lemma legacy_response_format_never_applies_witness :
  ResponseFormat.response_format Sample.JSON_parse Js.JUndefined
    (Js.JObj [("response_format", Js.JStr "text")])
  = Js.JUndefined.
Proof.
  apply (legacy_response_format_never_applies Sample.JSON_parse Js.JUndefined
           (Js.JObj [("response_format", Js.JStr "text")])).
  exists "Unexpected token". reflexivity.
Defined.

Section MarkdownBlocks.
Import Js Exc GitHubCopilotOpenAI ResponseFormat.

Lemma append_assoc (a b c : string) : (a ++ b) ++ c = a ++ b ++ c.
Proof.
  induction a as [|ch a IH]; [reflexivity|].
  change (String ch ((a ++ b) ++ c) = String ch (a ++ b ++ c)).
  f_equal. exact IH.
Qed.

Lemma allWhiteSpace_tick a : allWhiteSpace (a ++ "`") = false.
Proof.
  induction a as [|ch a IH]; simpl; [reflexivity|].
  rewrite IH. apply andb_false_r.
Qed.

Lemma drop_keeps_tick s : forall n,
  (n < String.length (s ++ "`"))%nat -> exists a, JsString.drop n (s ++ "`") = a ++ "`".
Proof.
  induction s as [|ch s IH]; intros n Hn.
  - destruct n as [|n]; [exists EmptyString; reflexivity | simpl in Hn; lia].
  - destruct n as [|n].
    + exists (String ch s). reflexivity.
    + simpl in Hn. apply (IH n). lia.
Qed.

Lemma closesBlock_later v :
  v <> EmptyString -> closesBlock (v ++ closing) = false.
Proof.
  intros Hv. unfold closesBlock. apply andb_false_iff. right.
  change closing with ((nl ++ "``") ++ "`"). rewrite <- append_assoc.
  destruct (drop_keeps_tick (v ++ nl ++ "``") 4) as [a Ha].
  - rewrite !length_append. destruct v; [contradiction|]. simpl. lia.
  - rewrite Ha. apply allWhiteSpace_tick.
Qed.

(** The lazy group stops at the closing fence that ends the text and
    not before. *)
Lemma lazyCapture_to_the_end u : lazyCapture (u ++ closing) = Some u.
Proof.
  induction u as [|ch u IH]; [reflexivity|].
  change (String ch u ++ closing) with (String ch (u ++ closing)).
  cbn [lazyCapture].
  change (String ch (u ++ closing)) with (String ch u ++ closing).
  rewrite closesBlock_later by discriminate.
  rewrite IH. reflexivity.
Qed.

Lemma afterOpening_blanks w c0 core :
  JsString.isWhiteSpace c0 = false ->
  allWhiteSpace w = true ->
  afterOpening (w ++ String c0 core ++ closing) = None
  \/ exists w2, allWhiteSpace w2 = true
       /\ afterOpening (w ++ String c0 core ++ closing) = Some (w2 ++ String c0 core).
Proof.
  intros Hc0. induction w as [|ch w IH]; intros Hw.
  - left. simpl. rewrite Hc0. reflexivity.
  - simpl in Hw. apply andb_true_iff in Hw as [Hch Hw].
    change (String ch w ++ String c0 core ++ closing)
      with (String ch (w ++ String c0 core ++ closing)).
    cbn [afterOpening]. rewrite Hch.
    destruct (IH Hw) as [Hnone|(w2 & Hw2 & Hsome)].
    + rewrite Hnone. destruct (Ascii.eqb ch (ascii_of_N 10)); [|left; reflexivity].
      right. exists w. split; [exact Hw|].
      rewrite <- append_assoc. apply lazyCapture_to_the_end.
    + rewrite Hsome. right. eauto.
Qed.

Lemma afterOpening_line_feed w c0 core :
  JsString.isWhiteSpace c0 = false ->
  allWhiteSpace w = true ->
  exists w2, allWhiteSpace w2 = true
    /\ afterOpening (nl ++ w ++ String c0 core ++ closing) = Some (w2 ++ String c0 core).
Proof.
  intros Hc0 Hw.
  change (nl ++ w ++ String c0 core ++ closing)
    with (String (ascii_of_N 10) (w ++ String c0 core ++ closing)).
  cbn [afterOpening].
  change (JsString.isWhiteSpace (ascii_of_N 10)) with true. cbv iota.
  destruct (afterOpening_blanks w c0 core Hc0 Hw) as [Hnone|(w2 & Hw2 & Hsome)].
  - rewrite Hnone. rewrite Ascii.eqb_refl.
    exists w. split; [exact Hw|].
    rewrite <- append_assoc. apply lazyCapture_to_the_end.
  - rewrite Hsome. eauto.
Qed.

Lemma trimStart_split s :
  exists w, allWhiteSpace w = true /\ s = w ++ JsString.trimStart s.
Proof.
  induction s as [|ch s (w & Hw & Hs)]; [exists EmptyString; split; reflexivity|].
  simpl. destruct (JsString.isWhiteSpace ch) eqn:Hch.
  - exists (String ch w). split.
    + simpl. rewrite Hch, Hw. reflexivity.
    + change (String ch s = String ch (w ++ JsString.trimStart s)).
      f_equal. exact Hs.
  - exists EmptyString. split; reflexivity.
Qed.

Lemma trimStart_blanks w s :
  allWhiteSpace w = true -> JsString.trimStart (w ++ s) = JsString.trimStart s.
Proof.
  induction w as [|ch w IH]; simpl; [reflexivity|].
  intros H. apply andb_true_iff in H as [Hch Hw]. rewrite Hch. exact (IH Hw).
Qed.

Lemma trimEnd_tick s : JsString.trimEnd (s ++ "`") = s ++ "`".
Proof.
  induction s as [|ch s IH]; [reflexivity|].
  change (String ch s ++ "`") with (String ch (s ++ "`")).
  cbn [JsString.trimEnd]. rewrite IH.
  destruct (s ++ "`") eqn:E; [|reflexivity].
  destruct s; discriminate.
Qed.

Lemma fenced_is_trimmed label body :
  JsString.trim (fence ++ label ++ nl ++ body ++ closing)
  = fence ++ label ++ nl ++ body ++ closing.
Proof.
  unfold JsString.trim.
  change (JsString.trimStart (fence ++ label ++ nl ++ body ++ closing))
    with (fence ++ label ++ nl ++ body ++ closing).
  assert (H : fence ++ label ++ nl ++ body ++ closing
              = (fence ++ label ++ nl ++ body ++ nl ++ "``") ++ "`").
  { rewrite !append_assoc. reflexivity. }
  rewrite H. apply trimEnd_tick.
Qed.

Lemma unwrap_body body :
  JsString.isEmpty (JsString.trim body) = false ->
  exists captured,
    afterOpening (nl ++ body ++ closing) = Some captured
    /\ captured <> EmptyString
    /\ JsString.trim captured = JsString.trim body.
Proof.
  intros Hb.
  destruct (trimStart_split body) as (w & Hw & Hs).
  destruct (trimStart_head body) as [He|(c0 & core & Hcore & Hc0)].
  { unfold JsString.trim in Hb. rewrite He in Hb. discriminate. }
  rewrite Hcore in Hs.
  destruct (afterOpening_line_feed w c0 core Hc0 Hw) as (w2 & Hw2 & Hsome).
  exists (w2 ++ String c0 core). split; [|split].
  - rewrite Hs. rewrite append_assoc. exact Hsome.
  - destruct w2; discriminate.
  - unfold JsString.trim. rewrite (trimStart_blanks w2 _ Hw2).
    rewrite Hcore. simpl JsString.trimStart. rewrite Hc0. reflexivity.
Qed.

(** X21.  [cleanJsonFromMarkdown] returns a text without whitespace at
    either end.  A text that, once trimmed, does not open with a code
    fence is only trimmed.  A body that is not blank, wrapped in a code
    block (one line feed after the opening fence, with or without the
    [json] label, one before the closing fence), comes back as the
    trimmed body. *)
Theorem cleanJsonFromMarkdown_unwraps :
  (forall s, exists s',
     cleanJsonFromMarkdown (JStr s) = JStr s' /\ JsString.trim s' = s')
  /\ (forall s,
        JsString.startsWith fence (JsString.trim s) = false ->
        cleanJsonFromMarkdown (JStr s) = JStr (JsString.trim s))
  /\ (forall body,
        JsString.isEmpty (JsString.trim body) = false ->
        cleanJsonFromMarkdown (JStr ("```json" ++ nl ++ body ++ nl ++ "```"))
        = JStr (JsString.trim body)
        /\ cleanJsonFromMarkdown (JStr ("```" ++ nl ++ body ++ nl ++ "```"))
           = JStr (JsString.trim body)).
Proof.
  split; [|split].
  - intros [|c t]; [exists EmptyString; split; reflexivity|].
    unfold cleanJsonFromMarkdown.
    destruct (matchJsonBlock _) as [[|c1 t1]|]; eexists; split;
      try reflexivity; apply trim_idempotent.
  - intros [|c t] H; [reflexivity|].
    unfold cleanJsonFromMarkdown, matchJsonBlock. rewrite H. reflexivity.
  - intros body Hb.
    destruct (unwrap_body body Hb) as (captured & Hsome & Hne & Htrim).
    split.
    + change ("```json" ++ nl ++ body ++ nl ++ "```")
        with (String "`" ("``json" ++ nl ++ body ++ closing)).
      unfold cleanJsonFromMarkdown.
      change (String "`" ("``json" ++ nl ++ body ++ closing))
        with (fence ++ "json" ++ nl ++ body ++ closing).
      rewrite fenced_is_trimmed.
      assert (Hm : matchJsonBlock (fence ++ "json" ++ nl ++ body ++ closing)
                   = Some captured).
      { unfold matchJsonBlock.
        change (JsString.startsWith fence (fence ++ "json" ++ nl ++ body ++ closing))
          with true. cbv iota.
        change (JsString.drop 3 (fence ++ "json" ++ nl ++ body ++ closing))
          with ("json" ++ nl ++ body ++ closing).
        change (JsString.startsWith "json" ("json" ++ nl ++ body ++ closing)) with true.
        cbv iota.
        change (JsString.drop 4 ("json" ++ nl ++ body ++ closing))
          with (nl ++ body ++ closing).
        rewrite Hsome. reflexivity. }
      rewrite Hm. destruct captured; [contradiction|]. rewrite Htrim. reflexivity.
    + change ("```" ++ nl ++ body ++ nl ++ "```")
        with (String "`" ("``" ++ nl ++ body ++ closing)).
      unfold cleanJsonFromMarkdown.
      change (String "`" ("``" ++ nl ++ body ++ closing))
        with (fence ++ EmptyString ++ nl ++ body ++ closing).
      rewrite fenced_is_trimmed.
      assert (Hm : matchJsonBlock (fence ++ EmptyString ++ nl ++ body ++ closing)
                   = Some captured).
      { unfold matchJsonBlock.
        change (JsString.startsWith fence (fence ++ EmptyString ++ nl ++ body ++ closing))
          with true. cbv iota.
        change (JsString.drop 3 (fence ++ EmptyString ++ nl ++ body ++ closing))
          with (nl ++ body ++ closing).
        change (JsString.startsWith "json" (nl ++ body ++ closing)) with false.
        cbv iota. exact Hsome. }
      rewrite Hm. destruct captured; [contradiction|]. rewrite Htrim. reflexivity.
Qed.

End MarkdownBlocks.

Lemma cleanJsonFromMarkdown_unwraps_witness :
  ResponseFormat.cleanJsonFromMarkdown (Js.JStr MoreSamples.fencedReply)
  = Js.JStr "{ }".
Proof.
  apply (proj1 (proj2 (proj2 cleanJsonFromMarkdown_unwraps) "{ }" eq_refl)).
Defined.

Section CacheKeyArithmetic.
Import Js Exc DynamicModelsManager Notions KeyNotions.

Lemma ToInt32_periodic z k : ToInt32 (z + k * 2 ^ 32) = ToInt32 z.
Proof.
  unfold ToInt32. replace (z + k * 2 ^ 32 + 2 ^ 31) with (z + 2 ^ 31 + k * 2 ^ 32) by lia.
  rewrite Z.mod_add by lia. reflexivity.
Qed.

Lemma ToInt32_multiple z : exists k, ToInt32 z = z + k * 2 ^ 32.
Proof.
  exists (- ((z + 2 ^ 31) / 2 ^ 32)). unfold ToInt32.
  rewrite Z.mod_eq by lia. lia.
Qed.

Lemma ToInt32_small z : - 2 ^ 31 <= z < 2 ^ 31 -> ToInt32 z = z.
Proof. intros H. unfold ToInt32. rewrite Z.mod_small by lia. lia. Qed.

(** One turn of the loop multiplies by 31, adds the code unit and wraps
    to 32 bits. *)
Lemma hashStep_polynomial h c : hashStep h c = ToInt32 (31 * h + JsString.code c).
Proof.
  unfold hashStep. rewrite Z.land_diag, Z.shiftl_mul_pow2 by lia.
  destruct (ToInt32_multiple h) as [k1 Hk1].
  destruct (ToInt32_multiple (ToInt32 h * 2 ^ 5)) as [k2 Hk2].
  rewrite Hk2, Hk1.
  replace ((h + k1 * 2 ^ 32) * 2 ^ 5 + k2 * 2 ^ 32 - h + JsString.code c)
    with (31 * h + JsString.code c + (32 * k1 + k2) * 2 ^ 32) by lia.
  apply ToInt32_periodic.
Qed.

Lemma polynomial_shift token : forall h k,
  exists k', polynomial (h + k * 2 ^ 32) token = polynomial h token + k' * 2 ^ 32.
Proof.
  induction token as [|c rest IH]; intros h k; simpl.
  - exists k. reflexivity.
  - destruct (IH (31 * h + JsString.code c) (31 * k)) as [k' Hk'].
    exists k'. rewrite <- Hk'. f_equal. lia.
Qed.

Lemma hashLoop_polynomial token : forall h,
  - 2 ^ 31 <= h < 2 ^ 31 -> hashLoop h token = ToInt32 (polynomial h token).
Proof.
  induction token as [|c rest IH]; intros h Hh; simpl.
  - symmetry. apply ToInt32_small. exact Hh.
  - rewrite IH by apply hashStep_range.
    rewrite hashStep_polynomial.
    destruct (ToInt32_multiple (31 * h + JsString.code c)) as [k Hk]. rewrite Hk.
    destruct (polynomial_shift rest (31 * h + JsString.code c) k) as [k' Hk'].
    rewrite Hk'. apply ToInt32_periodic.
Qed.

Lemma digitValue_digit36 d : 0 <= d < 36 -> digitValue (digit36 d) = d.
Proof.
  intros Hd. unfold digitValue, digit36, JsString.code.
  rewrite N_ascii_embedding.
  - rewrite Z2N.id by (destruct (d <? 10); lia).
    destruct (Z.ltb_spec d 10) as [H10|H10].
    + destruct (Z.ltb_spec (48 + d) 58); lia.
    + destruct (Z.ltb_spec (87 + d) 58); lia.
  - destruct (d <? 10); lia.
Qed.

Lemma readBase36_linear numeral : forall v,
  readBase36 v numeral
  = v * 36 ^ Z.of_nat (String.length numeral) + readBase36 0 numeral.
Proof.
  induction numeral as [|c rest IH]; intros v; simpl String.length.
  - simpl. lia.
  - simpl readBase36. rewrite (IH (v * 36 + digitValue c)), (IH (0 * 36 + digitValue c)).
    rewrite Nat2Z.inj_succ, Z.pow_succ_r by lia. lia.
Qed.

Lemma readBase36_aux fuel : forall n acc,
  0 <= n < 36 ^ Z.of_nat fuel ->
  readBase36 0 (toString36_aux fuel n acc)
  = n * 36 ^ Z.of_nat (String.length acc) + readBase36 0 acc.
Proof.
  induction fuel as [|fuel IH]; intros n acc Hn.
  - simpl in Hn. assert (n = 0) by lia. subst n. simpl. lia.
  - cbn [toString36_aux].
    pose proof (Z.mod_pos_bound n 36 ltac:(lia)) as Hmod.
    pose proof (Z.div_mod n 36 ltac:(lia)) as Hdm.
    destruct (Z.eqb_spec (n / 36) 0) as [Hz|Hz].
    + simpl readBase36. rewrite readBase36_linear, digitValue_digit36 by exact Hmod.
      replace n with (n mod 36) at 2 by lia. lia.
    + rewrite IH.
      * simpl String.length. simpl readBase36.
        rewrite (readBase36_linear acc), digitValue_digit36 by exact Hmod.
        rewrite Nat2Z.inj_succ, Z.pow_succ_r by lia. nia.
      * split; [apply Z.div_pos; lia|].
        apply Z.div_lt_upper_bound; [lia|].
        rewrite Nat2Z.inj_succ, Z.pow_succ_r in Hn by lia. lia.
Qed.

Lemma enough_fuel n : 0 <= n -> n < 36 ^ Z.of_nat (S (Z.to_nat (Z.log2 n))).
Proof.
  intros Hn. destruct (Z.eq_dec n 0) as [->|Hne]; [simpl; lia|].
  pose proof (Z.log2_spec n ltac:(lia)) as [_ Hlt].
  pose proof (Z.log2_nonneg n) as Hl.
  rewrite Nat2Z.inj_succ, Z2Nat.id by lia.
  eapply Z.lt_le_trans; [exact Hlt|].
  apply Z.pow_le_mono_l. lia.
Qed.

(** Reading back the base-36 numeral gives the number. *)
Lemma readBase36_toString36 n : 0 <= n -> readBase36 0 (toString36 n) = n.
Proof.
  intros Hn. unfold toString36.
  rewrite readBase36_aux by (split; [exact Hn | apply enough_fuel; exact Hn]).
  simpl. lia.
Qed.

(** X22.  The key of a proper token is [models_] followed by the
    base-36 numeral of the absolute value of its hash, and the hash is
    the polynomial in 31 of the code units, wrapped to 32 bits; reading
    the numeral back gives that absolute value.  Hence two proper tokens
    share a key exactly when their wrapped polynomials are equal or
    opposite. *)
Theorem hashToken_polynomial_key c rest c' rest' :
  let hashOf (token : string) := Z.abs (ToInt32 (polynomial 0 token)) in
  hashToken (JStr (String c rest)) = "models_" ++ toString36 (hashOf (String c rest))
  /\ readBase36 0 (toString36 (hashOf (String c rest))) = hashOf (String c rest)
  /\ (hashToken (JStr (String c rest)) = hashToken (JStr (String c' rest'))
      <-> hashOf (String c rest) = hashOf (String c' rest')).
Proof.
  intros hashOf.
  assert (Hkey : forall ch tl,
            hashToken (JStr (String ch tl)) = "models_" ++ toString36 (hashOf (String ch tl))).
  { intros ch tl. unfold hashToken, hashOf.
    rewrite (hashLoop_polynomial (String ch tl) 0) by lia. reflexivity. }
  split; [apply Hkey|]. split.
  - apply readBase36_toString36. unfold hashOf. lia.
  - rewrite !Hkey. split.
    + intros H. injection H as H.
      change (toString36 (hashOf (String c rest)) = toString36 (hashOf (String c' rest'))) in H.
      apply (f_equal (readBase36 0)) in H.
      rewrite !readBase36_toString36 in H by (unfold hashOf; lia). exact H.
    + intros ->. reflexivity.
Qed.

End CacheKeyArithmetic.

Section InputEdges.
Import Js Exc GitHubCopilotOpenAI Notions.

Variable JSON_parse : JValue -> string + JValue.
Variable JSON_stringify : JValue -> string.
Variable getModelByValue : string -> JValue.

Local Abbreviation prepareMessages := (prepareMessages JSON_parse JSON_stringify).
Local Abbreviation prepareRequest :=
  (prepareRequest JSON_parse JSON_stringify getModelByValue).

Implicit Types (p : NodeParameters) (w : DynamicModelsManager.World)
               (credentials : M JValue).

(** X23.  When the custom model is asked for (source [custom], or the
    manual-entry marker picked from the list), a custom name that is not
    blank is used as typed, without trimming; a missing, empty or blank
    one ends the item with an [Error] before the messages are read,
    whatever they are. *)
Theorem custom_model_is_required p :
  modelSource p = "custom" \/ model p = "__manual__" ->
  (forall s, customModel p = JStr s ->
             JsString.isEmpty (JsString.trim s) = false ->
             requestedModel p = inr s)
  /\ (truthy (customModel p) = false
      \/ (exists s, customModel p = JStr s /\ JsString.isEmpty (JsString.trim s) = true) ->
      exists message,
        requestedModel p = inl (JsError message)
        /\ forall i credentials w,
             prepareRequest i p credentials w = inl (JsError message)).
Proof.
  intros Hsel.
  assert (Hreq : exists message,
            requestedModel p = requireText (customModel p) (JsError message)).
  { unfold requestedModel.
    destruct (String.eqb_spec (modelSource p) "custom") as [_|Hn]; [eauto|].
    destruct (String.eqb_spec (model p) "__manual__") as [_|Hn']; [eauto|].
    destruct Hsel; contradiction. }
  destruct Hreq as [message Hreq]. split.
  - intros s Hs Ht. rewrite Hreq, Hs. apply requireText_string. exact Ht.
  - intros Hb. exists message.
    assert (Hm : requestedModel p = inl (JsError message)).
    { rewrite Hreq. apply requireText_blank. exact Hb. }
    split; [exact Hm|]. intros i credentials w.
    unfold GitHubCopilotOpenAI.prepareRequest. rewrite Hm. reflexivity.
Qed.

Lemma withDefaultMessage_kinds ms ms' :
  withDefaultMessage ms = inr ms' ->
  match ms' with
  | JArr (_ :: _) | JStr (String _ _) | JNum _ | JBool _ | JObj _ => True
  | _ => False
  end.
Proof.
  destruct ms as [| |b|n|[|c t]|[|m l]|props]; simpl; intros H; try discriminate;
    try (injection H as <-; exact I).
  destruct (assoc "length" props) as [| | |[| |]| | |];
    try discriminate; injection H as <-; exact I.
Qed.

(** X24.  What a request carries as [messages] is a list with at least
    one message, or, when JSON mode was given a bare string, that string,
    which is then not empty and never counted as vision content; a
    number, a boolean, [null] or a plain object given as messages ends
    the item before any request is built. *)
Theorem sent_messages_are_list_or_text i p credentials w request :
  prepareRequest i p credentials w = inr request ->
  (exists msg msgs, body_messages request = JArr (msg :: msgs))
  \/ (exists c t, body_messages request = JStr (String c t) /\ vision request = false).
Proof.
  unfold GitHubCopilotOpenAI.prepareRequest.
  destruct (requestedModel p); [discriminate|]. simpl.
  destruct (prepareMessages i p) as [|ms] eqn:Hs; [discriminate|]. simpl.
  destruct (get (advancedOptions p) "tools"); [|discriminate].
  assert (Hk : match ms with
               | JArr (_ :: _) | JStr (String _ _) | JNum _ | JBool _ => True
               | _ => False
               end).
  { unfold GitHubCopilotOpenAI.prepareMessages in Hs.
    destruct (parseMessages JSON_parse p) as [|ms0]; [discriminate|]. simpl in Hs.
    destruct (withDefaultMessage ms0) as [|ms1] eqn:Hd; [discriminate|]. simpl in Hs.
    apply withDefaultMessage_kinds in Hd.
    destruct ms1 as [| |b|n|[|c t]|[|m l]|props]; try contradiction;
      try (injection Hs as <-; exact I); try discriminate.
    remember (m :: l) as items eqn:Hitems.
    destruct (forEachM _ items); [discriminate|]. simpl in Hs.
    destruct (mapM _ items) as [|l'] eqn:Hn; [discriminate|]. simpl in Hs.
    injection Hs as <-. apply mapM_length in Hn. subst items.
    destruct l'; [discriminate | exact I]. }
  destruct ms as [| |b|n|[|c t]|[|m l]|props]; try contradiction; try discriminate.
  - simpl. intros [= <-]. right. simpl. eauto.
  - destruct (hasVisionContent (JArr (m :: l))) as [|[|]]; [discriminate| |]; simpl.
    + destruct (visionFallback _ _ _ _ _ _); [discriminate|]. simpl.
      intros [= <-]. left. simpl. eauto.
    + intros [= <-]. left. simpl. eauto.
Qed.

End InputEdges.

Lemma custom_model_is_required_witness :
  GitHubCopilotOpenAI.requestedModel
    (GitHubCopilotOpenAI.mkParams "custom" (Js.JStr " my-model ") "gpt-4o" "manual"
       (Js.JStr "[]") (Js.JObj []) (Js.JObj []))
  = inr " my-model ".
Proof.
  apply (proj1 (custom_model_is_required Sample.JSON_parse Sample.JSON_stringify
                  Sample.getModelByValue
                  (GitHubCopilotOpenAI.mkParams "custom" (Js.JStr " my-model ") "gpt-4o"
                     "manual" (Js.JStr "[]") (Js.JObj []) (Js.JObj []))
                  (or_introl eq_refl))).
  - reflexivity.
  - reflexivity.
Defined.

Lemma sent_messages_are_list_or_text_witness :
  (exists msg msgs,
     Js.JArr [Sample.userMessage "hi"] = Js.JArr (msg :: msgs))
  \/ (exists c t, Js.JArr [Sample.userMessage "hi"] = Js.JStr (String c t) /\ false = false).
Proof.
  apply (sent_messages_are_list_or_text Sample.JSON_parse Sample.JSON_stringify
           Sample.getModelByValue 0
           (Sample.jsonParams "gpt-4o" [Sample.userMessage "hi"] (Js.JObj []))
           Sample.credentials Sample.emptyWorld
           (GitHubCopilotOpenAI.mkRequest "gpt-4o" (Js.JArr [Sample.userMessage "hi"]) false)).
  vm_compute. reflexivity.
Defined.

Section FetchErrors.
Import Js Exc DynamicModelsManager Notions.

(** X25.  With nothing cached for the credential, a listing request
    that the provider answers with an error status ends
    [getAvailableModels] with the [Error] whose message reads
    [Failed to fetch models:] followed by the status code and text; the
    request is logged and nothing is cached. *)
Theorem http_error_reaches_caller oauthToken now status statusText w :
  cache w !! hashToken oauthToken = None ->
  getAvailableModels oauthToken now (Status status statusText) w
  = (inl (JsError ("Failed to fetch models: " ++ status ++ " " ++ statusText)),
     mkWorld (cache w) (fetches w ++ [oauthToken])).
Proof.
  intros H. unfold getAvailableModels. rewrite H. reflexivity.
Qed.

Lemma http_error_reaches_caller_witness :
  getAvailableModels Sample.token 0 (Status "401" "Unauthorized") Sample.emptyWorld
  = (inl (JsError "Failed to fetch models: 401 Unauthorized"),
     mkWorld ∅ [Sample.token]).
Proof.
  apply (http_error_reaches_caller Sample.token 0 "401" "Unauthorized" Sample.emptyWorld).
  reflexivity.
Defined.

End FetchErrors.
